(** * Accessors of the scooter-rental schema ([models.py])

    The schema of the rental business is declarative; its behaviour lives in a
    handful of methods: [Rental.duration_days], [Rental.is_overdue],
    [PricingTier.get_price_for_duration],
    [CustomerCommunications.get_recent_messages] and [add_message],
    [Customer.get_identifier] and the three methods of
    [DeepSeekPromptTemplate] that keep a single prompt active.  This file
    embeds these methods, together with the pieces of Python they rest on
    (truthiness, [or], [str.split], slicing, the [datetime] calendar), and
    proves what they compute.

    The first part holds every definition, the second and third parts the
    lemmas. *)

From Stdlib Require Import ZArith Lia Ascii.
From stdpp Require Import base gmap strings list fin_maps.

Local Open Scope Z_scope.

(** ** Python calls: results, exceptions and the receiver *)

(** The exceptions the modelled operations can raise. *)
Inductive exn : Type :=
  | TypeError.

(** What a call hands back to its caller. *)
Inductive outcome (A : Type) : Type :=
  | Returned (a : A)
  | Raised (e : exn).
Arguments Returned {A} a.
Arguments Raised {A} e.

(** A method is a function of the state it can touch (the receiving record,
    or the table of rows): it yields an outcome and the state it leaves
    behind.  A method that assigns to no attribute leaves the state as it
    found it, and that is a property to be proved of its body. *)
Definition meth (S A : Type) : Type := S → outcome A * S.

#[global] Instance meth_ret {S} : MRet (meth S) :=
  λ A a s, (Returned a, s).

#[global] Instance meth_bind {S} : MBind (meth S) :=
  λ A B f m s,
    match m s with
    | (Returned a, s') => f a s'
    | (Raised e, s') => (Raised e, s')
    end.

(** [self.f] *)
Definition attr {S A} (f : S → A) : meth S A :=
  λ s, (Returned (f s), s).

(** [raise e] *)
Definition raise {S A} (e : exn) : meth S A :=
  λ s, (Raised e, s).

(** An in-place update of the state. *)
Definition assign {S} (upd : S → S) : meth S unit :=
  λ s, (Returned (), upd s).

(** The result and the final state of a call. *)
Definition result {S A} (c : outcome A * S) : outcome A := c.1.
Definition after {S A} (c : outcome A * S) : S := c.2.

(** ** Truthiness and [or] *)

(** [bool(x)], for the types of values the methods test. *)
Class Truthy (A : Type) := truthy : A → bool.

(** A [DecimalField(max_digits=10, decimal_places=2)] holds a number with two
    decimal places; it is represented by its number of hundredths. *)
Definition Decimal : Type := Z.

(** [Decimal.__bool__]: zero is false. *)
#[global] Instance Decimal_truthy : Truthy Decimal := λ d, negb (d =? 0).

(** [len(s) != 0] for [str] and [list]. *)
#[global] Instance str_truthy : Truthy string :=
  λ s, match s with EmptyString => false | String _ _ => true end.

#[global] Instance list_truthy {A} : Truthy (list A) :=
  λ l, match l with [] => false | _ :: _ => true end.

(** [a or b] where [a] is a nullable field and [b] a mandatory one: [a] when it
    is truthy, [b] otherwise. *)
Definition py_or {A} `{Truthy A} (a : option A) (b : A) : A :=
  match a with
  | Some v => if truthy v then v else b
  | None => b
  end.

(** An argument arriving without a declared type: an [int] or [None]. *)
Inductive pyobj : Type :=
  | PyInt (n : Z)
  | PyNone.

(** [x <= k] for an integer literal [k]; [None <= k] raises [TypeError]. *)
Definition le_int {S} (x : pyobj) (k : Z) : meth S bool :=
  match x with
  | PyInt n => mret (n <=? k)
  | PyNone => raise TypeError
  end.

(** ** Strings and lists *)

(** [s.split(sep)] for a one-character separator. *)
Fixpoint split (sep : ascii) (s : string) : list string :=
  match s with
  | EmptyString => [EmptyString]
  | String c s' =>
      if Ascii.eqb c sep then EmptyString :: split sep s'
      else match split sep s' with
           | w :: ws => String c w :: ws
           | [] => [String c EmptyString]
           end
  end.

(** The line feed ['\n']. *)
Definition LF : ascii := ascii_of_nat 10.

(** [l[start:]]: a negative [start] counts from the end, and both ends are
    clamped to the list. *)
Definition slice_from {A} (start : Z) (l : list A) : list A :=
  let n := Z.of_nat (length l) in
  let i := if start <? 0 then Z.max (start + n) 0 else Z.min start n in
  drop (Z.to_nat i) l.

(** ** The [datetime] library *)

Module Datetime.

Record date : Type := mk_date { year : Z; month : Z; day : Z }.

Record datetime : Type := mk_datetime {
  on_date : date;
  hour : Z;
  minute : Z;
  second : Z;
  microsecond : Z
}.

Record timedelta : Type := mk_timedelta {
  days : Z;
  seconds : Z;
  microseconds : Z
}.

(** [datetime.date()] *)
Definition datetime_date (t : datetime) : date := on_date t.

(** [year % 4 == 0 and (year % 100 != 0 or year % 400 == 0)] *)
Definition is_leap (y : Z) : bool :=
  (y mod 4 =? 0) && (negb (y mod 100 =? 0) || (y mod 400 =? 0)).

(** Number of days before January 1st of year [y]. *)
Definition days_before_year (y : Z) : Z :=
  let p := y - 1 in
  p * 365 + p / 4 - p / 100 + p / 400.

Definition DAYS_IN_MONTH : list Z :=
  [-1; 31; 28; 31; 30; 31; 30; 31; 31; 30; 31; 30; 31].

Definition DAYS_BEFORE_MONTH : list Z :=
  [-1; 0; 31; 59; 90; 120; 151; 181; 212; 243; 273; 304; 334].

Definition days_in_month (y m : Z) : Z :=
  if (m =? 2) && is_leap y then 29
  else nth (Z.to_nat m) DAYS_IN_MONTH 0.

Definition days_before_month (y m : Z) : Z :=
  nth (Z.to_nat m) DAYS_BEFORE_MONTH 0
  + (if (2 <? m) && is_leap y then 1 else 0).

(** [date.toordinal()]: January 1st of year 1 is day 1. *)
Definition toordinal (d : date) : Z :=
  days_before_year (year d) + days_before_month (year d) (month d) + day d.

(** [date - date] *)
Definition date_sub (a b : date) : timedelta :=
  mk_timedelta (toordinal a - toordinal b) 0 0.

(** What the constructor of [date] accepts. *)
Definition valid_date (d : date) : bool :=
  (1 <=? year d) && (year d <=? 9999)
  && (1 <=? month d) && (month d <=? 12)
  && (1 <=? day d) && (day d <=? days_in_month (year d) (month d)).

(** Comparison is that of the tuples of fields, left to right. *)
Fixpoint tuple_ltb (a b : list Z) : bool :=
  match a, b with
  | x :: a', y :: b' => (x <? y) || ((x =? y) && tuple_ltb a' b')
  | [], _ :: _ => true
  | _, _ => false
  end.

Definition date_fields (d : date) : list Z := [year d; month d; day d].

Definition datetime_fields (t : datetime) : list Z :=
  date_fields (on_date t) ++ [hour t; minute t; second t; microsecond t].

(** [a < b] on dates and on datetimes of one time zone. *)
Definition date_ltb (a b : date) : bool :=
  tuple_ltb (date_fields a) (date_fields b).

Definition datetime_ltb (a b : datetime) : bool :=
  tuple_ltb (datetime_fields a) (datetime_fields b).

(** [datetime(y, m, d, h, mi, s)] *)
Definition at_time (y m d h mi s : Z) : datetime :=
  mk_datetime (mk_date y m d) h mi s 0.

End Datetime.
Import Datetime.

(** A [datetime] is always true. *)
#[global] Instance datetime_truthy : Truthy datetime := λ _, true.

(** ** More of strings: membership, [strftime] *)

(** [c in s] for a character [c]. *)
Fixpoint contains (c : ascii) (s : string) : bool :=
  match s with
  | EmptyString => false
  | String c' s' => Ascii.eqb c' c || contains c s'
  end.

(** The decimal digit of the units of [n]. *)
Definition digit (n : Z) : ascii := ascii_of_nat (48 + Z.to_nat (n mod 10)).

(** [n] written with [width] decimal digits, zeros in front: the directives
    [%m], [%d], [%H], [%M] and [%S] with a width of 2 and, for the years 1000
    to 9999, [%Y] with a width of 4. *)
Fixpoint zero_padded (width : nat) (n : Z) : string :=
  match width with
  | O => EmptyString
  | S w => zero_padded w (n / 10) +:+ String (digit n) EmptyString
  end.

(** [t.strftime('%Y-%m-%d %H:%M:%S')] *)
Definition strftime_Ymd_HMS (t : datetime) : string :=
  zero_padded 4 (year (on_date t)) +:+ "-"
  +:+ zero_padded 2 (month (on_date t)) +:+ "-"
  +:+ zero_padded 2 (day (on_date t)) +:+ " "
  +:+ zero_padded 2 (hour t) +:+ ":"
  +:+ zero_padded 2 (minute t) +:+ ":"
  +:+ zero_padded 2 (second t).

(** ** [Rental] *)

Module Rental.

Record t : Type := mk {
  customer : Z;
  scooter : Z;
  start_date : datetime;
  end_date : datetime;
  actual_end_date : option datetime;
  status : string;
  daily_rate : Decimal;
  total_amount : option Decimal;
  deposit : Decimal;
  notes : string;
  created_at : datetime;
  updated_at : datetime
}.

(** [end = self.actual_end_date or self.end_date]
    [return (end.date() - self.start_date.date()).days + 1] *)
Definition duration_days : meth t Z :=
  actual ← attr actual_end_date;
  planned ← attr end_date;
  let end_ := py_or actual planned in
  start ← attr start_date;
  mret (days (date_sub (datetime_date end_) (datetime_date start)) + 1).

(** [if self.status == 'active' and self.end_date < timezone.now():]
    [    return True]
    [return False]
    The clock reading [timezone.now()] is the argument [now]. *)
Definition is_overdue (now : datetime) : meth t bool :=
  st ← attr status;
  planned ← attr end_date;
  if String.eqb st "active" && datetime_ltb planned now
  then mret true
  else mret false.

End Rental.

(** ** [PricingTier] *)

Module PricingTier.

Record t : Type := mk {
  scooter : option Z;
  base_price : Decimal;
  one_year_rent : option Decimal;
  six_month_high_season : option Decimal;
  six_month_low_season : option Decimal;
  days_1_3 : option Decimal;
  days_4_7 : option Decimal;
  days_7_14 : option Decimal;
  days_15_25 : option Decimal;
  december_price : option Decimal;
  january_price : option Decimal;
  february_price : option Decimal;
  march_price : option Decimal;
  april_price : option Decimal;
  may_price : option Decimal;
  summer_price : option Decimal;
  september_price : option Decimal;
  october_price : option Decimal;
  november_price : option Decimal;
  is_active : bool;
  created_at : datetime;
  updated_at : datetime
}.

(** [self.f or self.base_price] *)
Definition or_base_price (f : t → option Decimal) : meth t Decimal :=
  override ← attr f;
  base ← attr base_price;
  mret (py_or override base).

(** The chain of [if days <= k: return self.f or self.base_price]. *)
Definition get_price_for_duration (days : pyobj) : meth t Decimal :=
  c3 ← le_int days 3;
  if (c3 : bool) then or_base_price days_1_3
  else
    c7 ← le_int days 7;
    if (c7 : bool) then or_base_price days_4_7
    else
      c14 ← le_int days 14;
      if (c14 : bool) then or_base_price days_7_14
      else
        c25 ← le_int days 25;
        if (c25 : bool) then or_base_price days_15_25
        else attr base_price.

(** The bands of the price list ([PERIOD_CHOICES]): the durations of each
    and the field that holds its price. *)
Inductive band : Z → (t → option Decimal) → Prop :=
  | band_1_3 d : 1 ≤ d ≤ 3 → band d days_1_3
  | band_4_7 d : 4 ≤ d ≤ 7 → band d days_4_7
  | band_7_14 d : 8 ≤ d ≤ 14 → band d days_7_14
  | band_15_25 d : 15 ≤ d ≤ 25 → band d days_15_25.

End PricingTier.

(** ** [CustomerCommunications] *)

Module CustomerCommunications.

Record t : Type := mk {
  name : string;
  phone_number : string;
  telegram_username : option string;
  is_client : bool;
  has_rented_before : bool;
  chat_history : string;
  manager_communication_info : string;
  related_customer : option Z;
  first_contact_date : datetime;
  last_contact_date : datetime;
  notes : string;
  communication_platform : string
}.

(** [if not self.chat_history: return []]
    [messages = self.chat_history.split('\n')]
    [return messages[-limit:] if messages else []] *)
Definition get_recent_messages (limit : Z) : meth t (list string) :=
  history ← attr chat_history;
  if negb (truthy history) then (mret [] : meth t (list string))
  else
    let messages := split LF history in
    mret (if truthy messages then slice_from (- limit) messages else []).

(** An instance: the fields, and the key of its row once it has one. *)
Record obj : Type := mk_obj { pk : option nat; row : t }.

Definition set_chat_history (h : string) (r : t) : t :=
  mk (name r) (phone_number r) (telegram_username r) (is_client r)
     (has_rented_before r) h (manager_communication_info r)
     (related_customer r) (first_contact_date r) (last_contact_date r)
     (notes r) (communication_platform r).

Definition set_contact_dates (first_ last_ : datetime) (r : t) : t :=
  mk (name r) (phone_number r) (telegram_username r) (is_client r)
     (has_rented_before r) (chat_history r) (manager_communication_info r)
     (related_customer r) first_ last_ (notes r) (communication_platform r).

(** The key [Model.save()] writes the row under. *)
Definition row_key (self : obj) (db : gmap nat t) : nat :=
  match pk self with
  | Some k => k
  | None => fresh (dom db)
  end.

(** [self.save()], the [Model.save()] of the framework: the row is written
    under the key of the instance, or under a key not in use when it has none;
    [auto_now] stamps [last_contact_date] with the clock reading,
    [auto_now_add] stamps [first_contact_date] when the row is inserted.  The
    instance then carries the key and the stamps. *)
Definition Model_save (saved_at : datetime) : meth (obj * gmap nat t) unit :=
  assign (λ s,
    let k := row_key s.1 s.2 in
    let first_ :=
      match pk s.1 with
      | Some k' => if decide (is_Some (s.2 !! k'))
                   then first_contact_date (row s.1) else saved_at
      | None => saved_at
      end in
    let r := set_contact_dates first_ saved_at (row s.1) in
    (mk_obj (Some k) r, <[k := r]> s.2)).

(** [f"[{timestamp}] {sender}: {message}"] *)
Definition format_message (timestamp sender message : string) : string :=
  "[" +:+ timestamp +:+ "] " +:+ sender +:+ ": " +:+ message.

(** [timestamp = timezone.now().strftime('%Y-%m-%d %H:%M:%S')]
    [new_message = f"[{timestamp}] {sender}: {message}"]
    [if self.chat_history: self.chat_history += f"\n{new_message}"]
    [else: self.chat_history = new_message]
    [self.save()]
    The clock is read twice: [now] by the method, [saved_at] by the save. *)
Definition add_message (now saved_at : datetime) (message sender : string)
  : meth (obj * gmap nat t) unit :=
  let timestamp := strftime_Ymd_HMS now in
  let new_message := format_message timestamp sender message in
  history ← attr (λ s : obj * gmap nat t, chat_history (row s.1));
  (if truthy history
   then assign (λ s : obj * gmap nat t,
          (mk_obj (pk s.1)
             (set_chat_history (history +:+ String LF new_message) (row s.1)),
           s.2))
   else assign (λ s : obj * gmap nat t,
          (mk_obj (pk s.1) (set_chat_history new_message (row s.1)), s.2)));;
  Model_save saved_at.

(** The default of the parameter [sender]. *)
Definition default_sender : string := "customer".

End CustomerCommunications.

(** ** [DeepSeekPromptTemplate] *)

Module DeepSeekPromptTemplate.

(** An instance; [pk] is [None] until the row has been inserted. *)
Record t : Type := mk {
  pk : option nat;
  name : string;
  description : string;
  system_prompt : string;
  is_active : bool;
  created_at : datetime;
  updated_at : datetime
}.

(** The table of the model: the rows by primary key. *)
Abbreviation table := (gmap nat t).

(** A model instance defines neither [__bool__] nor [__len__]. *)
#[global] Instance truthy_t : Truthy t := λ _, true.

Definition set_is_active (b : bool) (r : t) : t :=
  mk (pk r) (name r) (description r) (system_prompt r) b
     (created_at r) (updated_at r).

(** [objects.exclude(pk=p).update(is_active=False)]: every row whose key is
    not [p] gets the flag cleared; with [p = None] no row is excluded.  The
    bulk update does not touch [updated_at]. *)
Definition exclude_update_inactive (p : option nat) : meth table unit :=
  assign (map_imap (λ k r,
    Some (if decide (p = Some k) then r else set_is_active false r))).

(** [Model.save()]: an instance without key is inserted under a key the table
    does not use; one whose key is in the table overwrites that row, and one
    whose key is not is inserted under it.  [auto_now] stamps [updated_at]
    on every save, [auto_now_add] stamps [created_at] on insertion.  The
    instance is returned as the call leaves it. *)
Definition row_key (self : t) (db : table) : nat :=
  match pk self with
  | Some k => k
  | None => fresh (dom db)
  end.

Definition Model_save (now : datetime) (self : t) : meth table t :=
  λ db,
    let k := row_key self db in
    let created :=
      match pk self with
      | Some k' => if decide (is_Some (db !! k')) then created_at self else now
      | None => now
      end in
    let row := mk (Some k) (name self) (description self)
                  (system_prompt self) (is_active self) created now in
    (Returned row, <[k := row]> db).

(** [if self.is_active:]
    [    DeepSeekPromptTemplate.objects.exclude(pk=self.pk).update(is_active=False)]
    [super().save( *args, **kwargs )] *)
Definition save (now : datetime) (self : t) : meth table t :=
  (if is_active self then exclude_update_inactive (pk self) else mret ());;
  Model_save now self.

(** [Meta.ordering = ['-updated_at']]: [a] comes before [b]. *)
Definition before (a b : t) : bool :=
  datetime_ltb (updated_at b) (updated_at a).

(** [QuerySet.first()] under the ordering: the row no other row comes
    before; among rows with equal stamps, the one met first. *)
Fixpoint first (rows : list t) : option t :=
  match rows with
  | [] => None
  | r :: rows' =>
      match first rows' with
      | Some r' => if before r' r then Some r' else Some r
      | None => Some r
      end
  end.

(** [objects.filter(is_active=True)] *)
Definition filter_active (db : table) : list t :=
  List.filter is_active (map_to_list db).*2.

(** [return cls.objects.filter(is_active=True).first()] *)
Definition get_active_prompt : meth table (option t) :=
  λ db, (Returned (first (filter_active db)), db).

(** [objects.create(...)]: build the instance and save it. *)
Definition objects_create (now : datetime)
    (name description system_prompt : string) (is_active : bool)
  : meth table t :=
  save now (mk None name description system_prompt is_active now now).

Definition default_name : string := "Стандартный промпт консультанта".

Definition default_description : string :=
  "Базовый промпт для консультации по аренде скутеров".

Definition default_system_prompt : string :=
  "Вы - профессиональный консультант по аренде мотоциклов и скутеров в Таиланде.

Ваши задачи:
- Помогать клиентам выбрать подходящий скутер
- Предоставлять точную информацию о ценах и условиях аренды
- Учитывать историю общения с клиентом
- Быть дружелюбным и профессиональным
- Предлагать несколько вариантов скутеров, если они доступны

Отвечайте на русском языке, используйте эмодзи для дружелюбности.".

(** [active_prompt = cls.get_active_prompt()]
    [if active_prompt: return active_prompt]
    [default_prompt = cls.objects.create(..., is_active=True)]
    [return default_prompt] *)
Definition get_default_prompt (now : datetime) : meth table t :=
  active_prompt ← get_active_prompt;
  match active_prompt with
  | Some p => if truthy p then mret p
              else objects_create now default_name default_description
                     default_system_prompt true
  | None => objects_create now default_name default_description
              default_system_prompt true
  end.

(** The invariant of the table: no two rows are active. *)
Definition at_most_one_active (db : table) : Prop :=
  ∀ k1 k2 r1 r2,
    db !! k1 = Some r1 → db !! k2 = Some r2 →
    is_active r1 = true → is_active r2 = true → k1 = k2.

(** Every row carries its own key. *)
Definition keyed (db : table) : Prop :=
  ∀ k r, db !! k = Some r → pk r = Some k.


End DeepSeekPromptTemplate.

(** ** [Customer] *)

Module Customer.

Record t : Type := mk {
  name : string;
  phone_number : string;
  telegram_id : option Z;
  telegram_username : option string;
  created_at : datetime;
  updated_at : datetime;
  is_active : bool;
  notes : string
}.

(** What identifies a customer: a Telegram id, an [int], or a phone number,
    a [str]. *)
Inductive identifier : Type :=
  | Telegram (n : Z)
  | Phone (s : string).

(** [int.__bool__]: zero is false. *)
Definition int_bool (n : Z) : bool := negb (n =? 0).

(** [return self.telegram_id if self.telegram_id else self.phone_number] *)
Definition get_identifier : meth t identifier :=
  tid ← attr telegram_id;
  match tid with
  | Some n => if int_bool n then mret (Telegram n)
              else (p ← attr phone_number; mret (Phone p))
  | None => p ← attr phone_number; mret (Phone p)
  end.

(** [phone_number]: [unique=True]. *)
Definition unique_phone_number (db : gmap nat t) : Prop :=
  ∀ k1 k2 a b,
    db !! k1 = Some a → db !! k2 = Some b →
    phone_number a = phone_number b → k1 = k2.

(** [telegram_id]: [unique=True, null=True]; rows without id do not clash. *)
Definition unique_telegram_id (db : gmap nat t) : Prop :=
  ∀ k1 k2 a b n,
    db !! k1 = Some a → db !! k2 = Some b →
    telegram_id a = Some n → telegram_id b = Some n → k1 = k2.

End Customer.

(** ** Sample records *)

Module Sample.

Definition new_year : datetime := at_time 2024 1 1 10 30 0.
Definition third_day : datetime := at_time 2024 1 3 9 0 0.

(** A three-day rental of January 2024. *)
Definition rental : Rental.t :=
  Rental.mk 1 1 new_year third_day None "active" 25000 None 100000 ""
            new_year new_year.

(** The same rental, taken and returned on one day. *)
Definition same_day : Rental.t :=
  Rental.mk 1 1 new_year third_day (Some (at_time 2024 1 1 18 0 0))
            "completed" 25000 (Some 25000) 100000 "" new_year new_year.

(** A rental whose dates were entered the wrong way round. *)
Definition reversed : Rental.t :=
  Rental.mk 1 1 third_day new_year None "active" 25000 None 100000 ""
            new_year new_year.

(** A price list with every field set; the 1-3 day price is zero. *)
Definition tier : PricingTier.t :=
  PricingTier.mk None 30000 (Some 5000000) (Some 3000000) (Some 2400000)
    (Some 0) (Some 28000) (Some 25000) (Some 22000)
    (Some 35000) (Some 35000) (Some 33000) (Some 30000) (Some 28000)
    (Some 26000) (Some 24000) (Some 26000) (Some 28000) (Some 30000)
    true new_year new_year.

(** A customer with three lines of history. *)
Definition chat : CustomerCommunications.t :=
  CustomerCommunications.mk "Anna" "+66812345678" None false false
    (String "a" (String LF (String "b" (String LF (String "c" EmptyString)))))
    "" None new_year new_year "" "telegram".

(** A table with one active and one inactive prompt. *)
Definition prompts : gmap nat DeepSeekPromptTemplate.t :=
  <[2%nat := DeepSeekPromptTemplate.mk (Some 2%nat) "short" "" "Be brief."
               true new_year third_day]>
  (<[1%nat := DeepSeekPromptTemplate.mk (Some 1%nat) "long" "" "Be thorough."
               false new_year new_year]> ∅).

(** An unsaved prompt marked active. *)
Definition draft : DeepSeekPromptTemplate.t :=
  DeepSeekPromptTemplate.mk None "draft" "" "Be kind." true new_year new_year.

(** The customer of [chat], not yet stored. *)
Definition visitor : CustomerCommunications.obj :=
  CustomerCommunications.mk_obj None chat.

(** Two customers, one known by Telegram and one by telephone. *)
Definition customers : gmap nat Customer.t :=
  <[2%nat := Customer.mk "Boris" "+66898765432" None None new_year new_year
               true ""]>
  (<[1%nat := Customer.mk "Anna" "+66812345678" (Some 4242) (Some "anna")
                 new_year new_year true ""]> ∅).

End Sample.

(** * Part II: what the methods compute *)

(** ** The calendar *)

Section Calendar.

Lemma days_before_year_succ y :
  days_before_year (y + 1) = days_before_year y + (if is_leap y then 366 else 365).
Proof.
  unfold days_before_year, is_leap.
  replace (y + 1 - 1) with y by lia.
  destruct (Z.eqb_spec (y mod 4) 0), (Z.eqb_spec (y mod 100) 0),
    (Z.eqb_spec (y mod 400) 0); simpl; Z.div_mod_to_equations; lia.
Qed.

Lemma days_before_year_mono y1 y2 :
  y1 ≤ y2 → days_before_year y1 + 365 * (y2 - y1) ≤ days_before_year y2.
Proof.
  intros H. pattern y2. apply (Zlt_lower_bound_ind) with (z := y1); [|lia].
  intros x IH Hx.
  destruct (decide (x = y1)) as [->|Hne]; [lia|].
  specialize (IH (x - 1) ltac:(lia)).
  replace x with (x - 1 + 1) at 2 by lia.
  rewrite days_before_year_succ. destruct (is_leap (x - 1)); lia.
Qed.

Ltac month_cases m :=
  let H := fresh "Hm" in
  assert (H : m = 1 ∨ m = 2 ∨ m = 3 ∨ m = 4 ∨ m = 5 ∨ m = 6 ∨ m = 7 ∨ m = 8
              ∨ m = 9 ∨ m = 10 ∨ m = 11 ∨ m = 12) by lia;
  repeat (destruct H as [-> | H]); [.. | subst m].

Lemma days_in_month_pos y m : 1 ≤ m ≤ 12 → 28 ≤ days_in_month y m ≤ 31.
Proof.
  intros Hm. month_cases m; unfold days_in_month; destruct (is_leap y);
    simpl; lia.
Qed.

Lemma days_before_month_next y m1 m2 :
  1 ≤ m1 → m1 < m2 → m2 ≤ 12 →
  days_before_month y m1 + days_in_month y m1 ≤ days_before_month y m2.
Proof.
  intros H1 H12 H2.
  month_cases m1; month_cases m2; try lia;
    unfold days_before_month, days_in_month; destruct (is_leap y); simpl; lia.
Qed.

Lemma day_of_year_bounds y m d :
  1 ≤ m ≤ 12 → 1 ≤ d ≤ days_in_month y m →
  1 ≤ days_before_month y m + d ≤ (if is_leap y then 366 else 365).
Proof.
  intros Hm. month_cases m; unfold days_before_month, days_in_month;
    destruct (is_leap y); simpl; lia.
Qed.

Lemma valid_date_spec d :
  valid_date d = true ↔
  1 ≤ year d ≤ 9999 ∧ 1 ≤ month d ≤ 12
  ∧ 1 ≤ day d ≤ days_in_month (year d) (month d).
Proof. unfold valid_date. rewrite !andb_true_iff, !Z.leb_le. lia. Qed.

Lemma date_ltb_spec a b :
  date_ltb a b = true ↔
  year a < year b
  ∨ year a = year b ∧ (month a < month b
                        ∨ month a = month b ∧ day a < day b).
Proof.
  unfold date_ltb, date_fields; simpl.
  rewrite andb_false_r, orb_false_r.
  rewrite !orb_true_iff, !andb_true_iff, !orb_true_iff, !andb_true_iff,
    !Z.ltb_lt, !Z.eqb_eq.
  tauto.
Qed.

Lemma toordinal_lt a b :
  valid_date a = true → valid_date b = true →
  date_ltb a b = true → toordinal a < toordinal b.
Proof.
  rewrite !valid_date_spec, date_ltb_spec. unfold toordinal.
  intros (Hya & Hma & Hda) (Hyb & Hmb & Hdb) Hlt.
  pose proof (day_of_year_bounds _ _ _ Hma Hda) as Ba.
  pose proof (day_of_year_bounds _ _ _ Hmb Hdb) as Bb.
  destruct Hlt as [Hy | [Hy [Hm | [Hm Hd]]]].
  - pose proof (days_before_year_mono (year a + 1) (year b) ltac:(lia)) as M.
    rewrite days_before_year_succ in M.
    destruct (is_leap (year a)); lia.
  - rewrite Hy in *.
    pose proof (days_before_month_next (year b) (month a) (month b)) as N.
    lia.
  - rewrite Hy, Hm. lia.
Qed.

Lemma date_ltb_false a b :
  date_ltb b a = false → a = b ∨ date_ltb a b = true.
Proof.
  intros H. destruct (date_ltb a b) eqn:E; [by right | left].
  apply not_true_iff_false in H, E. rewrite date_ltb_spec in H, E.
  destruct a, b; simpl in *. f_equal; lia.
Qed.

Lemma toordinal_le a b :
  valid_date a = true → valid_date b = true →
  date_ltb b a = false → toordinal a ≤ toordinal b.
Proof.
  intros Va Vb H. destruct (date_ltb_false _ _ H) as [-> | Hlt]; [lia |].
  pose proof (toordinal_lt a b Va Vb Hlt). lia.
Qed.

Lemma tuple_ltb_app p1 p2 q1 q2 :
  length p1 = length p2 →
  tuple_ltb (p1 ++ q1) (p2 ++ q2)
  = tuple_ltb p1 p2 || (bool_decide (p1 = p2) && tuple_ltb q1 q2).
Proof.
  revert p2. induction p1 as [| x p1 IH]; intros [| y p2] Hlen;
    simpl in *; try discriminate.
  - by destruct q1, q2.
  - rewrite IH by congruence.
    destruct (Z.ltb_spec x y), (Z.eqb_spec x y); simpl; try lia; auto.
    all: repeat case_bool_decide; simplify_eq; try lia; auto.
    all: destruct (tuple_ltb p1 p2); simpl; auto.
Qed.

Lemma datetime_ltb_date a b :
  datetime_ltb a b = true →
  date_ltb (datetime_date b) (datetime_date a) = false.
Proof.
  unfold datetime_ltb, datetime_fields. rewrite tuple_ltb_app by done.
  intros H. apply not_true_iff_false. intros C.
  fold (date_ltb (on_date a) (on_date b)) in H.
  unfold datetime_date in C.
  rewrite date_ltb_spec in C.
  apply orb_true_iff in H as [H | H].
  - rewrite date_ltb_spec in H. lia.
  - apply andb_true_iff in H as [H _]. apply bool_decide_eq_true in H.
    unfold date_fields in H. simplify_eq. lia.
Qed.

Lemma datetime_not_ltb_date a b :
  datetime_ltb a b = false →
  date_ltb (datetime_date a) (datetime_date b) = false.
Proof.
  unfold datetime_ltb, datetime_fields. rewrite tuple_ltb_app by done.
  intros H. apply orb_false_iff in H as [H _]. exact H.
Qed.

Lemma tuple_ltb_irrefl l : tuple_ltb l l = false.
Proof.
  induction l as [| x l IH]; simpl; [done |].
  rewrite IH, Z.ltb_irrefl. by rewrite andb_false_r.
Qed.

Lemma datetime_ltb_irrefl t : datetime_ltb t t = false.
Proof. apply tuple_ltb_irrefl. Qed.

Lemma tuple_ltb_asym a b : tuple_ltb a b = true → tuple_ltb b a = false.
Proof.
  revert b. induction a as [| x a IH]; intros [| y b]; simpl; try done.
  destruct (Z.ltb_spec x y), (Z.ltb_spec y x), (Z.eqb_spec x y),
    (Z.eqb_spec y x); simpl; try lia; try done.
  apply IH.
Qed.

(** Not being before is transitive: the comparison is a total preorder. *)
Lemma tuple_ltb_negtrans a b c :
  tuple_ltb a b = false → tuple_ltb b c = false → tuple_ltb a c = false.
Proof.
  revert b c. induction a as [| x a IH]; intros [| y b] [| z c]; simpl;
    try done.
  destruct (Z.ltb_spec x y), (Z.ltb_spec y z), (Z.ltb_spec x z),
    (Z.eqb_spec x y), (Z.eqb_spec y z), (Z.eqb_spec x z);
    simpl; try lia; try done.
  apply IH.
Qed.

End Calendar.

(** ** [PricingTier.get_price_for_duration] *)

Section Pricing.

Import PricingTier.

(** An integer duration selects its branch by the four comparisons alone. *)
Lemma get_price_for_duration_int (t : PricingTier.t) (d : Z) :
  get_price_for_duration (PyInt d) t =
  (Returned (if d <=? 3 then py_or (days_1_3 t) (base_price t)
             else if d <=? 7 then py_or (days_4_7 t) (base_price t)
             else if d <=? 14 then py_or (days_7_14 t) (base_price t)
             else if d <=? 25 then py_or (days_15_25 t) (base_price t)
             else base_price t), t).
Proof.
  unfold get_price_for_duration, or_base_price, le_int, attr, mbind, mret,
    meth_bind, meth_ret.
  destruct (d <=? 3); [done |].
  destruct (d <=? 7); [done |].
  destruct (d <=? 14); [done |].
  by destruct (d <=? 25).
Qed.

(** Within a band the price is the [or] of the band's field and the base. *)
Lemma get_price_for_duration_band (t : PricingTier.t) (d : Z) f :
  band d f →
  get_price_for_duration (PyInt d) t = (Returned (py_or (f t) (base_price t)), t).
Proof.
  intros B. rewrite get_price_for_duration_int.
  destruct B;
    repeat match goal with
      | |- context [?a <=? ?b] => destruct (Z.leb_spec a b); try lia
      end; reflexivity.
Qed.

(** A missing duration is a [TypeError], and the tier is left alone. *)
Lemma get_price_for_duration_None (t : PricingTier.t) :
  get_price_for_duration PyNone t = (Raised TypeError, t).
Proof. reflexivity. Qed.

Lemma py_or_Some_nonzero (v b : Decimal) : v ≠ 0 → py_or (Some v) b = v.
Proof.
  intros Hv. unfold py_or, truthy, Decimal_truthy.
  by destruct (Z.eqb_spec v 0).
Qed.

Lemma py_or_zero (b : Decimal) : py_or (Some 0) b = b.
Proof. reflexivity. Qed.

Lemma py_or_None {A} `{Truthy A} (b : A) : py_or None b = b.
Proof. reflexivity. Qed.

(** C1, as amended.  For a duration of 1 to 25 days the price is the override
    of the duration's band whenever that field holds a non-zero amount, and
    the base price whenever the field is null or holds zero; the tier is not
    modified. *)
Theorem get_price_band_override (t : PricingTier.t) (d : Z) f :
  band d f →
  (∀ v, f t = Some v → v ≠ 0 →
        get_price_for_duration (PyInt d) t = (Returned v, t))
  ∧ (f t = None ∨ f t = Some 0 →
        get_price_for_duration (PyInt d) t = (Returned (base_price t), t)).
Proof.
  intros B. rewrite (get_price_for_duration_band t d f B). split.
  - intros v -> Hv. by rewrite py_or_Some_nonzero.
  - by intros [-> | ->].
Qed.

Lemma get_price_band_override_witness :
  get_price_for_duration (PyInt 5) Sample.tier = (Returned 28000, Sample.tier)
  ∧ get_price_for_duration (PyInt 2) Sample.tier
    = (Returned 30000, Sample.tier).
Proof.
  split.
  - apply (get_price_band_override Sample.tier 5 days_4_7);
      [apply band_4_7; lia | reflexivity | lia].
  - apply (get_price_band_override Sample.tier 2 days_1_3);
      [apply band_1_3; lia | right; reflexivity].
Defined.

(** C1, as stated, fails: a tier whose 1-3 day override is set to zero yields
    the base price for a two-day rental, not the override. *)
Lemma get_price_zero_override :
  band 2 days_1_3
  ∧ days_1_3 Sample.tier = Some 0
  ∧ result (get_price_for_duration (PyInt 2) Sample.tier) = Returned 30000
  ∧ ¬ (∀ (t : PricingTier.t) (d : Z) f v,
          band d f → f t = Some v →
          result (get_price_for_duration (PyInt d) t) = Returned v).
Proof.
  split; [apply band_1_3; lia |].
  split; [reflexivity |]. split; [reflexivity |].
  intros C.
  specialize (C Sample.tier 2 days_1_3 0 (band_1_3 2 ltac:(lia)) eq_refl).
  discriminate C.
Qed.

(** C2.  Beyond 25 days the price is the base price, whatever the other
    fields hold. *)
Theorem get_price_long_duration (t : PricingTier.t) (d : Z) :
  25 < d → get_price_for_duration (PyInt d) t = (Returned (base_price t), t).
Proof.
  intros Hd. rewrite get_price_for_duration_int.
  repeat match goal with
    | |- context [?a <=? ?b] => destruct (Z.leb_spec a b); try lia
    end; reflexivity.
Qed.

Lemma get_price_long_duration_witness :
  get_price_for_duration (PyInt 365) Sample.tier = (Returned 30000, Sample.tier).
Proof. apply (get_price_long_duration Sample.tier 365). lia. Defined.

(** C8.  On an integer duration the call returns: no duration, zero and the
    negative ones included, raises; and any duration of at most 3 is priced
    by the 1-3 day field or the base price. *)
Theorem get_price_total (t : PricingTier.t) (d : Z) :
  ∃ v, get_price_for_duration (PyInt d) t = (Returned v, t)
       ∧ (∀ e, result (get_price_for_duration (PyInt d) t) ≠ Raised e)
       ∧ (d ≤ 3 → v = py_or (days_1_3 t) (base_price t)
                  ∧ (v = base_price t ∨ days_1_3 t = Some v)).
Proof.
  rewrite get_price_for_duration_int. eexists. split; [reflexivity |].
  split; [discriminate |].
  intros Hd. destruct (Z.leb_spec d 3); [| lia]. split; [reflexivity |].
  unfold py_or. destruct (days_1_3 t) as [v |]; [| by left].
  destruct (truthy v); auto.
Qed.

Lemma get_price_total_witness :
  result (get_price_for_duration (PyInt (-4)) Sample.tier) = Returned 30000.
Proof.
  destruct (get_price_total Sample.tier (-4)) as (v & E & _ & H).
  rewrite E. destruct (H ltac:(lia)) as [-> _]. reflexivity.
Defined.

End Pricing.

(** ** [Rental.duration_days] and [Rental.is_overdue] *)

Section Rentals.

Import Rental.

(** A [datetime] being always true, [actual_end_date or end_date] is the
    actual end whenever there is one. *)
Lemma py_or_datetime (a : option datetime) (b : datetime) :
  py_or a b = match a with Some x => x | None => b end.
Proof. by destruct a. Qed.

(** The call is a subtraction of day numbers; the rental is left alone. *)
Lemma duration_days_eq (r : Rental.t) :
  duration_days r =
  (Returned (toordinal (datetime_date (py_or (actual_end_date r) (end_date r)))
             - toordinal (datetime_date (start_date r)) + 1), r).
Proof. reflexivity. Qed.

(** The times of day play no part: rentals that agree on the three calendar
    dates last equally long. *)
Lemma duration_days_ignores_time (r r' : Rental.t) :
  datetime_date (start_date r) = datetime_date (start_date r') →
  datetime_date (end_date r) = datetime_date (end_date r') →
  datetime_date <$> actual_end_date r = datetime_date <$> actual_end_date r' →
  result (duration_days r) = result (duration_days r').
Proof.
  rewrite !duration_days_eq, !py_or_datetime. unfold result; simpl.
  intros Hs He Ha.
  destruct (actual_end_date r), (actual_end_date r'); simplify_eq/=;
    congruence.
Qed.

(** C3.  When the start is not after the effective end (the actual end if
    there is one, the planned end otherwise), the call returns the number of
    calendar days from the start's date to the end's date, both counted: the
    difference of the two dates plus one.  It is at least 1, and exactly 1
    when the two dates coincide, whatever the times of day. *)
Theorem duration_days_inclusive (r : Rental.t) :
  let e := match actual_end_date r with Some a => a | None => end_date r end in
  valid_date (datetime_date (start_date r)) = true →
  valid_date (datetime_date e) = true →
  datetime_ltb e (start_date r) = false →
  ∃ n, duration_days r = (Returned n, r)
       ∧ n = toordinal (datetime_date e)
             - toordinal (datetime_date (start_date r)) + 1
       ∧ 1 ≤ n
       ∧ (datetime_date e = datetime_date (start_date r) → n = 1).
Proof.
  intros e Vs Ve Hle. rewrite duration_days_eq, py_or_datetime. fold e.
  eexists. split; [reflexivity |]. split; [reflexivity |].
  apply datetime_not_ltb_date in Hle.
  pose proof (toordinal_le _ _ Vs Ve Hle). split; [lia |].
  intros ->. lia.
Qed.

Lemma duration_days_inclusive_witness :
  duration_days Sample.rental = (Returned 3, Sample.rental)
  ∧ duration_days Sample.same_day = (Returned 1, Sample.same_day).
Proof.
  split.
  - destruct (duration_days_inclusive Sample.rental) as (n & E & -> & _);
      [reflexivity .. |]. exact E.
  - destruct (duration_days_inclusive Sample.same_day) as (n & E & -> & _);
      [reflexivity .. |]. exact E.
Defined.

(** The two durations of the specification's examples. *)
Example duration_2024_01_01_to_03 :
  result (duration_days Sample.rental) = Returned 3.
Proof. reflexivity. Qed.

Example duration_same_day :
  result (duration_days Sample.same_day) = Returned 1.
Proof. reflexivity. Qed.

(** C4, as stated, fails: for a rental that starts two days after it ends the
    call returns -1; it raises nothing. *)
Lemma duration_days_reversed_returns :
  datetime_ltb (end_date Sample.reversed) (start_date Sample.reversed) = true
  ∧ actual_end_date Sample.reversed = None
  ∧ duration_days Sample.reversed = (Returned (-1), Sample.reversed)
  ∧ ¬ (∃ e, result (duration_days Sample.reversed) = Raised e).
Proof.
  repeat split. intros [e H]. discriminate H.
Qed.

(** C4, as amended.  When the start is after the effective end, the call
    raises nothing: it returns the difference of the two dates plus one, which
    is then at most 1, and at most 0 once the start's calendar date is after
    the end's.  The rental is not modified. *)
Theorem duration_days_reversed (r : Rental.t) :
  let e := match actual_end_date r with Some a => a | None => end_date r end in
  valid_date (datetime_date (start_date r)) = true →
  valid_date (datetime_date e) = true →
  datetime_ltb e (start_date r) = true →
  ∃ n, duration_days r = (Returned n, r)
       ∧ n = toordinal (datetime_date e)
             - toordinal (datetime_date (start_date r)) + 1
       ∧ n ≤ 1
       ∧ (date_ltb (datetime_date e) (datetime_date (start_date r)) = true →
          n ≤ 0).
Proof.
  intros e Vs Ve Hlt. rewrite duration_days_eq, py_or_datetime. fold e.
  eexists. split; [reflexivity |]. split; [reflexivity |].
  apply datetime_ltb_date in Hlt.
  pose proof (toordinal_le _ _ Ve Vs Hlt). split; [lia |].
  intros Hd. pose proof (toordinal_lt _ _ Ve Vs Hd). lia.
Qed.

Lemma duration_days_reversed_witness :
  duration_days Sample.reversed = (Returned (-1), Sample.reversed).
Proof.
  destruct (duration_days_reversed Sample.reversed) as (n & E & -> & _);
    [reflexivity .. |]. exact E.
Defined.

(** C5.  The call returns true exactly when the status is ['active'] and the
    planned end is strictly before the clock reading; a completed rental is
    never overdue; the rental is not modified. *)
Theorem is_overdue_iff (r : Rental.t) (now : datetime) :
  ∃ b, is_overdue now r = (Returned b, r)
       ∧ (b = true ↔ status r = "active" ∧ datetime_ltb (end_date r) now = true)
       ∧ (status r = "completed" → b = false).
Proof.
  unfold is_overdue, attr, mbind, mret, meth_bind, meth_ret.
  destruct (String.eqb_spec (status r) "active") as [Ha | Ha]; simpl.
  - destruct (datetime_ltb (end_date r) now); eexists;
      (split; [reflexivity |]); split; try tauto; try congruence.
  - exists false. split; [reflexivity |]. split; [| done].
    split; [discriminate | tauto].
Qed.

Lemma is_overdue_iff_witness :
  is_overdue (at_time 2024 1 4 9 0 0) Sample.rental
    = (Returned true, Sample.rental)
  ∧ is_overdue (at_time 2024 1 4 9 0 0) Sample.same_day
    = (Returned false, Sample.same_day).
Proof.
  split.
  - destruct (is_overdue_iff Sample.rental (at_time 2024 1 4 9 0 0))
      as (b & E & [_ H] & _).
    rewrite E, H; [reflexivity | split; reflexivity].
  - destruct (is_overdue_iff Sample.same_day (at_time 2024 1 4 9 0 0))
      as (b & E & _ & H).
    rewrite E, H; reflexivity.
Defined.

(** The planned end alone counts: an actual end does not change the answer. *)
Lemma is_overdue_planned_end (r r' : Rental.t) (now : datetime) :
  status r = status r' → end_date r = end_date r' →
  result (is_overdue now r) = result (is_overdue now r').
Proof.
  unfold is_overdue, attr, mbind, mret, meth_bind, meth_ret.
  intros -> ->.
  by destruct (String.eqb (status r') "active" && datetime_ltb (end_date r') now).
Qed.

(** The end itself is not yet overdue: the comparison is strict. *)
Lemma is_overdue_strict (r : Rental.t) :
  result (is_overdue (end_date r) r) = Returned false.
Proof.
  unfold is_overdue, attr, mbind, mret, meth_bind, meth_ret, result.
  by rewrite datetime_ltb_irrefl, andb_false_r.
Qed.

End Rentals.

(** ** The resolvers leave no trace *)

Section Purity.

(** Whatever the argument, pricing leaves the tier as it was. *)
Lemma get_price_for_duration_after (t : PricingTier.t) (days : pyobj) :
  after (PricingTier.get_price_for_duration days t) = t.
Proof.
  destruct days as [d |]; [| reflexivity].
  by rewrite get_price_for_duration_int.
Qed.

(** C7.  Calling a resolver a second time, on the record as the first call
    left it and with the same argument, gives the same outcome, and after
    either call the record is what it was before the first. *)
Theorem resolvers_deterministic
    (t : PricingTier.t) (days : pyobj) (r : Rental.t) :
  (let c1 := PricingTier.get_price_for_duration days t in
   let c2 := PricingTier.get_price_for_duration days (after c1) in
   result c1 = result c2 ∧ after c1 = t ∧ after c2 = t)
  ∧ (let c1 := Rental.duration_days r in
     let c2 := Rental.duration_days (after c1) in
     result c1 = result c2 ∧ after c1 = r ∧ after c2 = r).
Proof.
  split; cbv zeta.
  - by rewrite !get_price_for_duration_after.
  - by rewrite !duration_days_eq.
Qed.

End Purity.

(** ** [CustomerCommunications.get_recent_messages] *)

Section Messages.

Import CustomerCommunications.

(** [split] yields at least one piece, so the test [if messages] of the source
    never fails. *)
Lemma split_nonempty sep s : split sep s ≠ [].
Proof.
  destruct s as [| c s]; simpl; [done |].
  destruct (Ascii.eqb c sep); [done |].
  by destruct (split sep s).
Qed.

Lemma get_recent_messages_eq (c : CustomerCommunications.t) (limit : Z) :
  get_recent_messages limit c =
  (Returned (if truthy (chat_history c)
             then slice_from (- limit) (split LF (chat_history c))
             else []), c).
Proof.
  unfold get_recent_messages, attr, mbind, mret, meth_bind, meth_ret.
  destruct (truthy (chat_history c)); simpl; [| done].
  pose proof (split_nonempty LF (chat_history c)).
  by destruct (split LF (chat_history c)).
Qed.

(** An empty history has no messages. *)
Lemma get_recent_messages_empty (c : CustomerCommunications.t) (limit : Z) :
  chat_history c = EmptyString →
  get_recent_messages limit c = (Returned [], c).
Proof. intros H. rewrite get_recent_messages_eq, H. reflexivity. Qed.

(** For a limit of at least one, the slice is the last [limit] lines, or all
    of them when there are fewer. *)
Lemma slice_from_last {A} (limit : Z) (l : list A) :
  1 ≤ limit →
  slice_from (- limit) l = drop (length l - Z.to_nat limit) l
  ∧ length (slice_from (- limit) l) = Nat.min (Z.to_nat limit) (length l).
Proof.
  intros H. unfold slice_from.
  destruct (Z.ltb_spec (- limit) 0); [| lia].
  replace (Z.to_nat (Z.max (- limit + Z.of_nat (length l)) 0))
    with (length l - Z.to_nat limit)%nat by lia.
  split; [done |]. rewrite length_drop. lia.
Qed.

Lemma get_recent_messages_last (c : CustomerCommunications.t) (limit : Z) :
  chat_history c ≠ EmptyString → 1 ≤ limit →
  let lines := split LF (chat_history c) in
  ∃ ms, get_recent_messages limit c = (Returned ms, c)
        ∧ ms = drop (length lines - Z.to_nat limit) lines
        ∧ length ms = Nat.min (Z.to_nat limit) (length lines)
        ∧ (Z.of_nat (length ms) ≤ limit).
Proof.
  intros Hne Hl lines. rewrite get_recent_messages_eq.
  destruct (chat_history c) eqn:E; [done |]. simpl truthy. cbv iota.
  destruct (slice_from_last limit lines Hl) as [Hd Hlen].
  exists (slice_from (- limit) lines). split; [reflexivity |].
  split; [exact Hd |]. split; [exact Hlen |]. rewrite Hlen. lia.
Qed.

Lemma slice_from_zero {A} (l : list A) : slice_from (- 0) l = l.
Proof.
  unfold slice_from. change (- 0) with 0. rewrite Z.ltb_irrefl.
  rewrite Z.min_l by lia. reflexivity.
Qed.

(** A limit of zero does not limit: [messages[-0:]] is the whole list. *)
Lemma get_recent_messages_zero (c : CustomerCommunications.t) :
  chat_history c ≠ EmptyString →
  get_recent_messages 0 c = (Returned (split LF (chat_history c)), c).
Proof.
  intros Hne. rewrite get_recent_messages_eq.
  destruct (chat_history c) eqn:E; [done |].
  by rewrite slice_from_zero.
Qed.

(** C10, at the input where it fails.  With a limit of 0 and a history of
    three lines the call returns all three lines, where the last
    [min(0, 3) = 0] lines were claimed; the record is not modified. *)
Theorem get_recent_messages_limit_zero :
  length (split LF (chat_history Sample.chat)) = 3%nat
  ∧ get_recent_messages 0 Sample.chat
    = (Returned ["a"; "b"; "c"]%string, Sample.chat)
  ∧ get_recent_messages 2 Sample.chat
    = (Returned ["b"; "c"]%string, Sample.chat).
Proof. repeat split. Qed.

End Messages.

(** ** [DeepSeekPromptTemplate]: a single active prompt *)

Section Prompts.

Import DeepSeekPromptTemplate.

Implicit Types (db : gmap nat DeepSeekPromptTemplate.t).
Implicit Types (self p r : DeepSeekPromptTemplate.t).

(** *** The bulk update *)

Lemma exclude_update_lookup (q : option nat) db (k : nat) :
  after (exclude_update_inactive q db) !! k =
  (λ r, if decide (q = Some k) then r else set_is_active false r) <$> db !! k.
Proof.
  unfold exclude_update_inactive, assign, after; simpl.
  rewrite map_lookup_imap. by destruct (db !! k).
Qed.

Lemma exclude_update_dom (q : option nat) db :
  dom (after (exclude_update_inactive q db)) = dom db.
Proof.
  apply set_eq. intros k.
  rewrite !elem_of_dom, exclude_update_lookup. apply fmap_is_Some.
Qed.

Lemma set_is_active_same r : set_is_active (is_active r) r = r.
Proof. by destruct r. Qed.

(** Clearing a flag nowhere set changes nothing. *)
Lemma exclude_update_none_active (q : option nat) db :
  (∀ k r, db !! k = Some r → is_active r = false) →
  after (exclude_update_inactive q db) = db.
Proof.
  intros Hin. apply map_eq. intros k. rewrite exclude_update_lookup.
  destruct (db !! k) as [r |] eqn:E; simpl; [| done].
  case_decide; [done |]. f_equal.
  rewrite <- (Hin k r E). apply set_is_active_same.
Qed.

(** *** [save] *)

Lemma save_eq (now : datetime) self db :
  save now self db =
  Model_save now self
    (if is_active self then after (exclude_update_inactive (pk self) db)
     else db).
Proof.
  unfold save, mbind, meth_bind, exclude_update_inactive, assign, mret,
    meth_ret, after.
  by destruct (is_active self).
Qed.

(** The bulk update does not move the key the row is written under. *)
Lemma row_key_exclude_update self db :
  row_key self
    (if is_active self then after (exclude_update_inactive (pk self) db)
     else db)
  = row_key self db.
Proof.
  unfold row_key. destruct (pk self); [done |].
  destruct (is_active self); [| done]. by rewrite exclude_update_dom.
Qed.

(** The row as saved: under its key, with the flag of the instance. *)
Lemma save_lookup_key (now : datetime) self db :
  ∃ row, result (save now self db) = Returned row
         ∧ after (save now self db) !! row_key self db = Some row
         ∧ pk row = Some (row_key self db)
         ∧ is_active row = is_active self
         ∧ name row = name self
         ∧ system_prompt row = system_prompt self
         ∧ updated_at row = now.
Proof.
  rewrite save_eq. pose proof (row_key_exclude_update self db) as Hkey.
  set (db1 := if is_active self
              then after (exclude_update_inactive (pk self) db) else db) in *.
  unfold Model_save, result, after. cbn [fst snd]. rewrite Hkey.
  eexists. split; [reflexivity |].
  rewrite lookup_insert_eq. by repeat split.
Qed.

(** The other rows: cleared by an active instance, untouched otherwise. *)
Lemma save_lookup_other (now : datetime) self db (k : nat) :
  k ≠ row_key self db →
  after (save now self db) !! k =
  if is_active self then set_is_active false <$> db !! k else db !! k.
Proof.
  intros Hk. rewrite save_eq.
  pose proof (row_key_exclude_update self db) as Hkey.
  set (db1 := if is_active self
              then after (exclude_update_inactive (pk self) db) else db) in *.
  unfold Model_save. unfold after at 1. cbn [fst snd].
  rewrite Hkey, lookup_insert_ne by done. subst db1.
  destruct (is_active self); [| done].
  rewrite exclude_update_lookup.
  destruct (db !! k) as [r |]; simpl; [| done].
  case_decide as Hpk; [| done].
  exfalso. apply Hk. unfold row_key. by rewrite Hpk.
Qed.

Lemma sample_prompts_one_active : at_most_one_active Sample.prompts.
Proof.
  intros k1 k2 r1 r2 H1 H2 A1 A2. unfold Sample.prompts in *.
  apply lookup_insert_Some in H1 as [[<- <-] | [? H1]];
    apply lookup_insert_Some in H2 as [[<- <-] | [? H2]]; try done.
  - apply lookup_insert_Some in H2 as [[<- <-] | [? H2]]; done.
  - apply lookup_insert_Some in H1 as [[<- <-] | [? H1]]; done.
  - apply lookup_insert_Some in H1 as [[<- <-] | [? H1]]; done.
Qed.

(** C6.  One writer at a time, [save] keeps the table with at most one active
    row.  The row of the instance is written under its key with the flag of
    the instance; saving an active instance clears the flag of every other
    row, and saving an inactive one leaves every other row as it was. *)
Theorem save_keeps_one_active (now : datetime) self db :
  let db' := after (save now self db) in
  let k := row_key self db in
  (at_most_one_active db → at_most_one_active db')
  ∧ (∃ row, save now self db = (Returned row, db')
            ∧ db' !! k = Some row ∧ is_active row = is_active self)
  ∧ (is_active self = true →
     ∀ k' r, k' ≠ k → db' !! k' = Some r → is_active r = false)
  ∧ (is_active self = false → ∀ k', k' ≠ k → db' !! k' = db !! k').
Proof.
  intros db' k.
  destruct (save_lookup_key now self db) as (row & Hres & Hk & _ & Hact & _).
  fold db' k in Hk.
  assert (Hon : is_active self = true →
                ∀ k' r, k' ≠ k → db' !! k' = Some r → is_active r = false).
  { intros Ha k' r Hne Hr. unfold db' in Hr.
    rewrite save_lookup_other, Ha in Hr by done.
    destruct (db !! k') as [r0 |]; simplify_eq/=. done. }
  assert (Hoff : is_active self = false → ∀ k', k' ≠ k → db' !! k' = db !! k').
  { intros Ha k' Hne. unfold db'. by rewrite save_lookup_other, Ha. }
  split; [| split; [| by split]].
  - intros Inv k1 k2 r1 r2 H1 H2 A1 A2.
    destruct (is_active self) eqn:Ha.
    + destruct (decide (k1 = k)) as [-> | N1].
      * destruct (decide (k2 = k)) as [-> | N2]; [done |].
        rewrite (Hon eq_refl k2 r2 N2 H2) in A2. done.
      * rewrite (Hon eq_refl k1 r1 N1 H1) in A1. done.
    + assert (N1 : k1 ≠ k) by (intros ->; congruence).
      assert (N2 : k2 ≠ k) by (intros ->; congruence).
      rewrite (Hoff eq_refl k1 N1) in H1. rewrite (Hoff eq_refl k2 N2) in H2.
      by apply (Inv k1 k2 r1 r2).
  - exists row. split; [| by split].
    unfold db'. destruct (save now self db) as [o s] eqn:E.
    unfold result in Hres; simpl in Hres. by rewrite Hres.
Qed.

Lemma save_keeps_one_active_witness :
  at_most_one_active
    (after (save Sample.third_day Sample.draft Sample.prompts))
  ∧ after (save Sample.third_day Sample.draft Sample.prompts) !! 2%nat
    = Some (set_is_active false
              (DeepSeekPromptTemplate.mk (Some 2%nat) "short" "" "Be brief."
                 true Sample.new_year Sample.third_day)).
Proof.
  split.
  - apply (save_keeps_one_active Sample.third_day Sample.draft Sample.prompts).
    exact sample_prompts_one_active.
  - reflexivity.
Defined.

(** *** [first] and the active rows *)

Lemma first_None (rows : list DeepSeekPromptTemplate.t) :
  first rows = None ↔ rows = [].
Proof.
  destruct rows as [| r rows]; simpl; [done |].
  split; [| done].
  destruct (first rows) as [r' |]; [| done]. by destruct (before r' r).
Qed.

Lemma first_elem (rows : list DeepSeekPromptTemplate.t) a :
  first rows = Some a → a ∈ rows.
Proof.
  induction rows as [| r rows IH]; simpl; [done |].
  destruct (first rows) as [r' |].
  - destruct (before r' r); intros [= <-]; [right; by apply IH | left].
  - intros [= <-]. left.
Qed.

(** The row returned is one that none of the rows comes before. *)
Lemma first_newest (rows : list DeepSeekPromptTemplate.t) a :
  first rows = Some a → ∀ r, r ∈ rows → before r a = false.
Proof.
  revert a. induction rows as [| r0 rows IH]; simpl; intros a; [done |].
  destruct (first rows) as [r' |] eqn:F.
  - destruct (before r' r0) eqn:B; intros [= <-] r Hr;
      apply elem_of_cons in Hr as [-> | Hr].
    + by apply tuple_ltb_asym.
    + by apply IH.
    + apply tuple_ltb_irrefl.
    + eapply tuple_ltb_negtrans; [exact B | by apply IH].
  - apply first_None in F as ->. intros [= <-] r Hr.
    apply list_elem_of_singleton in Hr as ->. apply tuple_ltb_irrefl.
Qed.

Lemma elem_of_filter_active db r :
  r ∈ filter_active db ↔ is_active r = true ∧ ∃ k, db !! k = Some r.
Proof.
  unfold filter_active.
  rewrite list_elem_of_In, filter_In, <- list_elem_of_In, list_elem_of_fmap.
  split.
  - intros [([k r'] & -> & Hin) Ha]. apply elem_of_map_to_list in Hin. eauto.
  - intros [Ha [k Hk]]. split; [| done].
    exists (k, r). split; [done |]. by apply elem_of_map_to_list.
Qed.

(** [get_active_prompt] reads: it returns an active row of the table, if there
    is one, and leaves the table alone. *)
Lemma get_active_prompt_spec db :
  after (get_active_prompt db) = db
  ∧ match result (get_active_prompt db) with
    | Returned (Some a) => is_active a = true ∧ ∃ k, db !! k = Some a
    | Returned None => ∀ k r, db !! k = Some r → is_active r = false
    | Raised _ => False
    end.
Proof.
  split; [done |]. unfold get_active_prompt, result; simpl.
  destruct (first (filter_active db)) as [a |] eqn:F.
  - apply first_elem in F. by apply elem_of_filter_active.
  - apply first_None in F. intros k r Hk.
    destruct (is_active r) eqn:Ha; [| done].
    assert (Hin : r ∈ filter_active db) by (apply elem_of_filter_active; eauto).
    rewrite F in Hin. by apply not_elem_of_nil in Hin.
Qed.

(** C9.  [get_default_prompt] returns an active template.  When the table has
    an active row, it returns the first of them and the table is unchanged;
    when it has none, exactly one row is added, under a key not in use, and
    that row, the standard consultant prompt marked active, is returned. *)
Theorem get_default_prompt_active (now : datetime) db :
  ∃ p db',
    get_default_prompt now db = (Returned p, db')
    ∧ is_active p = true
    ∧ ((∃ k r, db !! k = Some r ∧ is_active r = true) →
       first (filter_active db) = Some p ∧ db' = db ∧ ∃ k, db !! k = Some p)
    ∧ ((∀ k r, db !! k = Some r → is_active r = false) →
       let k := fresh (dom db) in
       db !! k = None ∧ db' = <[k := p]> db ∧ size db' = S (size db)
       ∧ p = DeepSeekPromptTemplate.mk (Some k) default_name
               default_description default_system_prompt true now now).
Proof.
  destruct (get_active_prompt_spec db) as [_ Hspec].
  unfold get_default_prompt, mbind, meth_bind.
  unfold get_active_prompt, result in *; simpl in *.
  destruct (first (filter_active db)) as [a |] eqn:F.
  - destruct Hspec as [Ha [k Hk]].
    exists a, db. split; [reflexivity |]. split; [done |]. split.
    + intros _. eauto.
    + intros Hall. rewrite (Hall k a Hk) in Ha. done.
  - unfold objects_create. rewrite save_eq. cbn [is_active pk].
    rewrite (exclude_update_none_active None db Hspec).
    unfold Model_save, row_key. cbn [is_active pk name description
      system_prompt].
    assert (Hfresh : db !! fresh (dom db) = None).
    { apply not_elem_of_dom, is_fresh. }
    eexists _, _. split; [reflexivity |]. split; [reflexivity |]. split.
    + intros (k & r & Hk & Ha). rewrite (Hspec k r Hk) in Ha. done.
    + intros _. repeat split; [done |]. by apply map_size_insert_None.
Qed.

Lemma get_default_prompt_active_witness :
  result (get_default_prompt Sample.third_day Sample.prompts)
  = Returned (DeepSeekPromptTemplate.mk (Some 2%nat) "short" "" "Be brief."
                true Sample.new_year Sample.third_day)
  ∧ size (after (get_default_prompt Sample.third_day ∅)) = 1%nat.
Proof.
  split.
  - destruct (get_default_prompt_active Sample.third_day Sample.prompts)
      as (p & db' & E & _ & H & _).
    rewrite E. destruct H as (F & _).
    + exists 2%nat. eexists. split; reflexivity.
    + unfold result; simpl. f_equal.
      assert (G : first (filter_active Sample.prompts)
                  = Some (DeepSeekPromptTemplate.mk (Some 2%nat) "short" ""
                            "Be brief." true Sample.new_year Sample.third_day))
        by (vm_compute; reflexivity).
      congruence.
  - destruct (get_default_prompt_active Sample.third_day ∅)
      as (p & db' & E & _ & _ & H).
    rewrite E. destruct H as (_ & _ & S & _).
    + intros k r Hk. by rewrite lookup_empty in Hk.
    + exact S.
Defined.

End Prompts.

(** * Part III: further properties *)

(** ** Durations and the calendar *)

Section RentalFacts.

Import Rental.

Lemma tuple_ltb_trans a b c :
  tuple_ltb a b = true → tuple_ltb b c = true → tuple_ltb a c = true.
Proof.
  revert b c. induction a as [| x a IH]; intros [| y b] [| z c]; simpl;
    try done.
  destruct (Z.ltb_spec x y), (Z.ltb_spec y z), (Z.ltb_spec x z),
    (Z.eqb_spec x y), (Z.eqb_spec y z), (Z.eqb_spec x z);
    simpl; try lia; try done.
  apply IH.
Qed.

(** The day number tells valid dates apart. *)
Lemma toordinal_inj a b :
  valid_date a = true → valid_date b = true →
  toordinal a = toordinal b → a = b.
Proof.
  intros Va Vb E.
  destruct (date_ltb a b) eqn:Lab.
  { pose proof (toordinal_lt a b Va Vb Lab). lia. }
  destruct (date_ltb_false b a Lab) as [-> | Lba]; [done |].
  pose proof (toordinal_lt b a Vb Va Lba). lia.
Qed.

Lemma is_overdue_eq (r : Rental.t) (now : datetime) :
  is_overdue now r
  = (Returned (String.eqb (status r) "active"
               && datetime_ltb (end_date r) now), r).
Proof.
  unfold is_overdue, attr, mbind, mret, meth_bind, meth_ret.
  by destruct (String.eqb (status r) "active"
               && datetime_ltb (end_date r) now).
Qed.

(** X1.  A rental that is overdue at some time is overdue at every later
    time, as long as its status and planned end stay as they are. *)
Theorem is_overdue_stays (r : Rental.t) (now later : datetime) :
  datetime_ltb now later = true →
  result (is_overdue now r) = Returned true →
  result (is_overdue later r) = Returned true.
Proof.
  intros Hlater. rewrite !is_overdue_eq. unfold result; simpl.
  intros [= H]. apply andb_true_iff in H as [-> Hlt]. f_equal.
  exact (tuple_ltb_trans _ _ _ Hlt Hlater).
Qed.

Lemma is_overdue_stays_witness :
  result (is_overdue (at_time 2025 6 1 0 0 0) Sample.rental) = Returned true.
Proof.
  apply (is_overdue_stays Sample.rental (at_time 2024 1 4 9 0 0));
    reflexivity.
Defined.

(** X2.  With valid dates, the duration is 1 only for a rental that starts
    and ends on one calendar date. *)
Theorem duration_days_one_iff (r : Rental.t) :
  let e := match actual_end_date r with Some a => a | None => end_date r end in
  valid_date (datetime_date (start_date r)) = true →
  valid_date (datetime_date e) = true →
  (result (duration_days r) = Returned 1
   ↔ datetime_date e = datetime_date (start_date r)).
Proof.
  intros e Vs Ve. rewrite duration_days_eq, py_or_datetime. fold e.
  unfold result; simpl. split.
  - intros [= H]. apply toordinal_inj; [done .. | lia].
  - intros ->. f_equal. lia.
Qed.

Lemma duration_days_one_iff_witness :
  datetime_date (at_time 2024 1 1 18 0 0)
  = datetime_date (start_date Sample.same_day).
Proof.
  apply (duration_days_one_iff Sample.same_day); reflexivity.
Defined.

(** X3.  With valid dates, starting no later and ending no earlier (by the
    calendar) never shortens a rental: the duration is monotone in the end
    date and antitone in the start date.  In particular an early return,
    recorded as [actual_end_date], never lengthens it. *)
Theorem duration_days_monotone (r r' : Rental.t) (n n' : Z) :
  let e := match actual_end_date r with Some a => a | None => end_date r end in
  let e' :=
    match actual_end_date r' with Some a => a | None => end_date r' end in
  valid_date (datetime_date (start_date r)) = true →
  valid_date (datetime_date (start_date r')) = true →
  valid_date (datetime_date e) = true →
  valid_date (datetime_date e') = true →
  date_ltb (datetime_date (start_date r)) (datetime_date (start_date r'))
    = false →
  date_ltb (datetime_date e') (datetime_date e) = false →
  result (duration_days r) = Returned n →
  result (duration_days r') = Returned n' →
  n ≤ n'.
Proof.
  intros e e' Vs Vs' Ve Ve' Hs He.
  rewrite !duration_days_eq, !py_or_datetime. fold e e'.
  unfold result; simpl. intros [= <-] [= <-].
  pose proof (toordinal_le _ _ Vs' Vs Hs).
  pose proof (toordinal_le _ _ Ve Ve' He). lia.
Qed.

Lemma duration_days_monotone_witness : 1 ≤ 3.
Proof.
  apply (duration_days_monotone Sample.same_day Sample.rental 1 3);
    reflexivity.
Defined.

(** X4.  A rental from the first of January to the thirty-first of December
    of one year lasts 366 days when the year is a leap year and 365 days
    otherwise. *)
Theorem duration_days_calendar_year (r : Rental.t) (y : Z) :
  let e := match actual_end_date r with Some a => a | None => end_date r end in
  datetime_date (start_date r) = mk_date y 1 1 →
  datetime_date e = mk_date y 12 31 →
  result (duration_days r) = Returned (if is_leap y then 366 else 365).
Proof.
  intros e Hs He. rewrite duration_days_eq, py_or_datetime. fold e.
  rewrite Hs, He. unfold result, toordinal, days_before_month; simpl.
  destruct (is_leap y); f_equal; lia.
Qed.

Lemma duration_days_calendar_year_witness :
  result (duration_days
            (Rental.mk 1 1 (at_time 2024 1 1 8 0 0) (at_time 2024 12 31 20 0 0)
               None "active" 25000 None 0 "" Sample.new_year Sample.new_year))
  = Returned 366.
Proof.
  apply (duration_days_calendar_year _ 2024); reflexivity.
Defined.

(** X5.  From the first of January of one year to the first of January of the
    next, both counted, there are 367 days across a leap year and 366
    otherwise: the year after a leap year starts one day later. *)
Theorem duration_days_new_year (r : Rental.t) (y : Z) :
  let e := match actual_end_date r with Some a => a | None => end_date r end in
  datetime_date (start_date r) = mk_date y 1 1 →
  datetime_date e = mk_date (y + 1) 1 1 →
  result (duration_days r) = Returned (if is_leap y then 367 else 366).
Proof.
  intros e Hs He. rewrite duration_days_eq, py_or_datetime. fold e.
  rewrite Hs, He. unfold result, toordinal, days_before_month; simpl.
  rewrite days_before_year_succ.
  destruct (is_leap y); f_equal; lia.
Qed.

Lemma duration_days_new_year_witness :
  result (duration_days
            (Rental.mk 1 1 (at_time 2023 1 1 8 0 0) (at_time 2024 1 1 20 0 0)
               None "active" 25000 None 0 "" Sample.new_year Sample.new_year))
  = Returned 366.
Proof.
  apply (duration_days_new_year _ 2023); reflexivity.
Defined.

End RentalFacts.

(** ** Prices *)

Section PriceFacts.

Import PricingTier.

(** X6.  The price depends on the base price and the four band fields only:
    tiers that agree on these five get the same answer for every argument,
    whatever their long-term, monthly and seasonal prices, flag and stamps. *)
Theorem get_price_reads_bands_only (t t' : PricingTier.t) (days : pyobj) :
  base_price t = base_price t' →
  days_1_3 t = days_1_3 t' →
  days_4_7 t = days_4_7 t' →
  days_7_14 t = days_7_14 t' →
  days_15_25 t = days_15_25 t' →
  result (get_price_for_duration days t)
  = result (get_price_for_duration days t').
Proof.
  intros Hb H1 H2 H3 H4. destruct days as [d |]; [| reflexivity].
  rewrite !get_price_for_duration_int. unfold result; simpl.
  by rewrite Hb, H1, H2, H3, H4.
Qed.

Lemma get_price_reads_bands_only_witness :
  result (get_price_for_duration (PyInt 200) Sample.tier)
  = result (get_price_for_duration (PyInt 200)
      (PricingTier.mk (Some 7) 30000 None None None
         (Some 0) (Some 28000) (Some 25000) (Some 22000)
         None None None None None None None None None None
         false Sample.third_day Sample.third_day)).
Proof.
  apply get_price_reads_bands_only; reflexivity.
Defined.

(** [or] never yields zero when its right operand is not zero. *)
Lemma py_or_nonzero (o : option Decimal) (b : Decimal) :
  b ≠ 0 → py_or o b ≠ 0.
Proof.
  intros Hb. unfold py_or, truthy, Decimal_truthy.
  destruct o as [v |]; [| done].
  by destruct (Z.eqb_spec v 0).
Qed.

(** X7.  A tier with a non-zero base price never prices a day at zero,
    whatever the duration and the overrides. *)
Theorem get_price_never_zero (t : PricingTier.t) (d : Z) :
  base_price t ≠ 0 →
  result (get_price_for_duration (PyInt d) t) ≠ Returned 0.
Proof.
  intros Hb. rewrite get_price_for_duration_int. unfold result; simpl.
  intros [= H]. revert H.
  repeat match goal with
         | |- context [if ?c then _ else _] => destruct c
         end; try by apply py_or_nonzero.
  done.
Qed.

Lemma get_price_never_zero_witness :
  result (get_price_for_duration (PyInt 1) Sample.tier) ≠ Returned 0.
Proof. apply (get_price_never_zero Sample.tier 1). discriminate. Defined.

Lemma py_or_positive (o : option Decimal) (b : Decimal) :
  0 < b → (∀ v, o = Some v → 0 ≤ v) → 0 < py_or o b.
Proof.
  intros Hb Ho. unfold py_or, truthy, Decimal_truthy.
  destruct o as [v |]; [| done].
  specialize (Ho v eq_refl). destruct (Z.eqb_spec v 0); simpl; lia.
Qed.

(** X8.  With a positive base price and no negative band price, the price of
    a day is positive for every duration. *)
Theorem get_price_positive (t : PricingTier.t) (d : Z) (v : Decimal) :
  0 < base_price t →
  (∀ f x, f ∈ [days_1_3; days_4_7; days_7_14; days_15_25] →
          f t = Some x → 0 ≤ x) →
  result (get_price_for_duration (PyInt d) t) = Returned v →
  0 < v.
Proof.
  intros Hb Hf. rewrite get_price_for_duration_int. unfold result; simpl.
  intros [= <-].
  repeat match goal with
         | |- context [if ?c then _ else _] => destruct c
         end; try done;
    apply py_or_positive; try done; intros x Hx; eapply Hf; try exact Hx;
    set_solver.
Qed.

Lemma get_price_positive_witness : 0 < 28000.
Proof.
  apply (get_price_positive Sample.tier 6 28000); [done | | reflexivity].
  intros f x Hf.
  repeat (apply elem_of_cons in Hf as [-> | Hf]); [| | | | by apply elem_of_nil in Hf];
    intros [= <-]; done.
Defined.

End PriceFacts.

(** ** The chat history and its lines *)

Section HistoryFacts.

Import CustomerCommunications.

(** *** [split] and [in] *)

Lemma contains_app c (a b : string) :
  contains c (a +:+ b) = contains c a || contains c b.
Proof.
  induction a as [| x a IH]; simpl; [done |].
  rewrite IH. by rewrite orb_assoc.
Qed.

Lemma split_app sep (a b : string) :
  split sep (a +:+ String sep b) = split sep a ++ split sep b.
Proof.
  induction a as [| x a IH]; simpl.
  - by rewrite Ascii.eqb_refl.
  - destruct (Ascii.eqb x sep); rewrite IH; [done |].
    pose proof (split_nonempty sep a).
    by destruct (split sep a).
Qed.

Lemma split_no_sep sep (s : string) :
  contains sep s = false → split sep s = [s].
Proof.
  induction s as [| x s IH]; simpl; [done |].
  intros H. apply orb_false_iff in H as [Hx Hs].
  by rewrite Hx, (IH Hs).
Qed.

Lemma split_pieces sep (s : string) :
  Forall (λ w, contains sep w = false) (split sep s).
Proof.
  induction s as [| x s IH]; simpl.
  - by repeat constructor.
  - destruct (Ascii.eqb x sep) eqn:E; [by constructor |].
    destruct (split sep s) as [| w ws].
    + repeat constructor. simpl. by rewrite E.
    + inversion IH as [| ? ? Hw Hws]; subst. constructor; [| done].
      simpl. by rewrite E, Hw.
Qed.

(** *** [get_recent_messages] for every limit *)

Lemma get_recent_messages_lines (c : CustomerCommunications.t) (limit : Z) :
  chat_history c ≠ EmptyString →
  get_recent_messages limit c
  = (Returned (slice_from (- limit) (split LF (chat_history c))), c).
Proof.
  intros Hne. rewrite get_recent_messages_eq.
  by destruct (chat_history c).
Qed.

(** X9.  Whatever the limit, the messages returned are a final segment of
    the lines of the history, in their order, none of them holds a line
    feed, and the record is not modified. *)
Theorem get_recent_messages_suffix (c : CustomerCommunications.t) (limit : Z) :
  ∃ ms, get_recent_messages limit c = (Returned ms, c)
        ∧ ms `suffix_of` split LF (chat_history c)
        ∧ Forall (λ m, contains LF m = false) ms.
Proof.
  rewrite get_recent_messages_eq.
  destruct (truthy (chat_history c)).
  - eexists. split; [reflexivity |]. unfold slice_from. split.
    + apply suffix_drop.
    + apply Forall_drop, split_pieces.
  - exists []. split; [reflexivity |]. split; [| constructor].
    apply suffix_nil.
Qed.

(** X10.  On a history that is not empty and for a limit of at least 1, the
    messages returned are the last [limit] lines, or all the lines when there
    are fewer; they are never more than [limit]. *)
Theorem get_recent_messages_bounded
    (c : CustomerCommunications.t) (limit : Z) :
  chat_history c ≠ EmptyString → 1 ≤ limit →
  ∃ ms, get_recent_messages limit c = (Returned ms, c)
        ∧ ms = drop (length (split LF (chat_history c)) - Z.to_nat limit)
                    (split LF (chat_history c))
        ∧ length ms
          = Nat.min (Z.to_nat limit) (length (split LF (chat_history c)))
        ∧ Z.of_nat (length ms) ≤ limit.
Proof. intros Hne Hl. exact (get_recent_messages_last c limit Hne Hl). Qed.

Lemma get_recent_messages_bounded_witness :
  get_recent_messages 2 Sample.chat
  = (Returned ["b"; "c"]%string, Sample.chat).
Proof.
  destruct (get_recent_messages_bounded Sample.chat 2) as (ms & E & -> & _);
    [discriminate | lia |]. exact E.
Defined.

(** X11.  A negative limit drops from the front instead of counting from the
    end: with a limit of [-k] the first [k] lines are left out, and nothing is
    returned when the history has at most [k] lines. *)
Theorem get_recent_messages_negative
    (c : CustomerCommunications.t) (limit : Z) :
  chat_history c ≠ EmptyString → limit ≤ -1 →
  get_recent_messages limit c
  = (Returned (drop (Z.to_nat (- limit)) (split LF (chat_history c))), c).
Proof.
  intros Hne Hl. rewrite get_recent_messages_lines by done.
  unfold slice_from. destruct (Z.ltb_spec (- limit) 0); [lia |].
  f_equal. f_equal.
  destruct (Z.min_spec (- limit) (Z.of_nat (length (split LF (chat_history c)))))
    as [[_ ->] | [Hge ->]]; [done |].
  rewrite Nat2Z.id. rewrite drop_all. symmetry. apply drop_ge. lia.
Qed.

Lemma get_recent_messages_negative_witness :
  get_recent_messages (-1) Sample.chat
  = (Returned ["b"; "c"]%string, Sample.chat)
  ∧ get_recent_messages (-7) Sample.chat = (Returned [], Sample.chat).
Proof.
  split.
  - rewrite (get_recent_messages_negative Sample.chat (-1));
      [reflexivity | discriminate | lia].
  - rewrite (get_recent_messages_negative Sample.chat (-7));
      [reflexivity | discriminate | lia].
Defined.

(** *** [add_message] *)

Lemma digit_not_LF n : Ascii.eqb (digit n) LF = false.
Proof.
  unfold digit. pose proof (Z.mod_pos_bound n 10 ltac:(lia)) as B.
  assert (H : ∃ k : nat, (k < 10)%nat ∧ Z.to_nat (n mod 10) = k)
    by (exists (Z.to_nat (n mod 10)); lia).
  destruct H as (k & Hk & ->).
  do 10 (destruct k as [| k]; [reflexivity |]). lia.
Qed.

Lemma zero_padded_no_LF w n : contains LF (zero_padded w n) = false.
Proof.
  revert n. induction w as [| w IH]; intros n; cbn [zero_padded]; [done |].
  rewrite contains_app, IH. cbn [contains]. by rewrite digit_not_LF.
Qed.

Lemma strftime_no_LF t : contains LF (strftime_Ymd_HMS t) = false.
Proof.
  unfold strftime_Ymd_HMS.
  repeat (rewrite contains_app || rewrite zero_padded_no_LF). reflexivity.
Qed.

Lemma format_message_no_LF t sender message :
  contains LF sender = false → contains LF message = false →
  contains LF (format_message (strftime_Ymd_HMS t) sender message) = false.
Proof.
  intros Hs Hm. unfold format_message.
  repeat (rewrite contains_app || rewrite strftime_no_LF).
  rewrite Hs, Hm. reflexivity.
Qed.

(** What [add_message] leaves behind. *)
Lemma add_message_eq (now saved_at : datetime) (message sender : string)
    (self : obj) (db : gmap nat CustomerCommunications.t) :
  let line := format_message (strftime_Ymd_HMS now) sender message in
  let history :=
    if truthy (chat_history (row self))
    then chat_history (row self) +:+ String LF line
    else line in
  let first_ :=
    match pk self with
    | Some k' => if decide (is_Some (db !! k'))
                 then first_contact_date (row self) else saved_at
    | None => saved_at
    end in
  let r := set_contact_dates first_ saved_at
             (set_chat_history history (row self)) in
  add_message now saved_at message sender (self, db)
  = (Returned (), (mk_obj (Some (row_key self db)) r,
                   <[row_key self db := r]> db)).
Proof.
  unfold add_message, Model_save, attr, assign, mbind, meth_bind.
  cbn [fst snd row pk].
  by destruct (truthy (chat_history (row self))).
Qed.

Lemma add_message_split (now saved_at : datetime) (message sender : string)
    (self : obj) (db : gmap nat CustomerCommunications.t) :
  split LF (chat_history
              (row (after (add_message now saved_at message sender
                             (self, db))).1))
  = (if truthy (chat_history (row self))
     then split LF (chat_history (row self)) else [])
    ++ split LF (format_message (strftime_Ymd_HMS now) sender message).
Proof.
  rewrite add_message_eq. unfold after. cbn [fst snd row chat_history
    set_contact_dates set_chat_history].
  destruct (truthy (chat_history (row self))); [| done].
  apply split_app.
Qed.

(** X12.  [add_message] only appends: afterwards the lines of the history are
    the lines it had, followed by the lines of the new entry
    [[timestamp] sender: message]; an entry whose sender and message hold no
    line feed adds exactly one line. *)
Theorem add_message_lines (now saved_at : datetime) (message sender : string)
    (self : obj) (db : gmap nat CustomerCommunications.t) :
  let self' := (after (add_message now saved_at message sender (self, db))).1 in
  let old := if truthy (chat_history (row self))
             then split LF (chat_history (row self)) else [] in
  let line := format_message (strftime_Ymd_HMS now) sender message in
  split LF (chat_history (row self')) = old ++ split LF line
  ∧ (contains LF sender = false → contains LF message = false →
     split LF (chat_history (row self')) = old ++ [line]).
Proof.
  cbv zeta. rewrite add_message_split. split; [done |].
  intros Hs Hm.
  by rewrite (split_no_sep LF _ (format_message_no_LF now _ _ Hs Hm)).
Qed.

Lemma add_message_lines_witness :
  split LF (chat_history
              (row (after (add_message Sample.third_day Sample.third_day
                             "hello" default_sender (Sample.visitor, ∅))).1))
  = ["a"; "b"; "c"; "[2024-01-03 09:00:00] customer: hello"]%string.
Proof.
  destruct (add_message_lines Sample.third_day Sample.third_day "hello"
              default_sender Sample.visitor ∅) as [_ H].
  rewrite H; reflexivity.
Defined.

(** X13.  When neither the sender nor the message holds a line feed, the
    entry just added is one line, the last one: [get_recent_messages(1)] on
    the instance returns exactly it, and a larger limit returns it after the
    lines that were there. *)
Theorem add_message_then_recent (now saved_at : datetime)
    (message sender : string) (self : obj)
    (db : gmap nat CustomerCommunications.t) (limit : Z) :
  contains LF sender = false → contains LF message = false → 1 ≤ limit →
  let line := format_message (strftime_Ymd_HMS now) sender message in
  let old := if truthy (chat_history (row self))
             then split LF (chat_history (row self)) else [] in
  let self' := (after (add_message now saved_at message sender (self, db))).1 in
  result (get_recent_messages 1 (row self')) = Returned [line]
  ∧ result (get_recent_messages limit (row self'))
    = Returned (drop (length old + 1 - Z.to_nat limit) (old ++ [line])).
Proof.
  intros Hs Hm Hl. cbv zeta.
  pose proof (add_message_split now saved_at message sender self db) as L.
  rewrite (split_no_sep LF _ (format_message_no_LF now _ _ Hs Hm)) in L.
  remember (after (add_message now saved_at message sender (self, db))).1
    as self' eqn:Eself in *.
  remember (if truthy (chat_history (row self))
            then split LF (chat_history (row self)) else []) as old eqn:Eold.
  remember (format_message (strftime_Ymd_HMS now) sender message) as line.
  assert (Hne : chat_history (row self') ≠ EmptyString).
  { intros E. rewrite E in L. cbn [split] in L.
    destruct old as [| w old']; cbn [app] in L.
    - injection L as L. subst line. discriminate L.
    - injection L as _ L. by destruct old'. }
  rewrite !get_recent_messages_lines by done. rewrite L.
  unfold result; simpl. split; f_equal.
  - destruct (slice_from_last 1 (old ++ [line]) ltac:(lia)) as [-> _].
    rewrite length_app. cbn [length].
    replace (length old + 1 - Z.to_nat 1)%nat with (length old) by lia.
    apply drop_app_length.
  - destruct (slice_from_last limit (old ++ [line]) Hl) as [-> _].
    rewrite length_app. reflexivity.
Qed.

Lemma add_message_then_recent_witness :
  result (get_recent_messages 1
    (row (after (add_message Sample.third_day Sample.third_day "hello"
                   default_sender (Sample.visitor, ∅))).1))
  = Returned ["[2024-01-03 09:00:00] customer: hello"%string].
Proof.
  destruct (add_message_then_recent Sample.third_day Sample.third_day "hello"
              default_sender Sample.visitor ∅ 1) as [H _];
    [reflexivity | reflexivity | lia |].
  exact H.
Defined.

(** X14.  [add_message] stores what it changed: the row of the instance is in
    the table under the key the instance now carries, the other rows are as
    they were, and of the fields only the history and the two contact stamps
    can differ from before. *)
Theorem add_message_saves (now saved_at : datetime) (message sender : string)
    (self : obj) (db : gmap nat CustomerCommunications.t) :
  let s' := after (add_message now saved_at message sender (self, db)) in
  let k := row_key self db in
  pk s'.1 = Some k
  ∧ s'.2 !! k = Some (row s'.1)
  ∧ (∀ k', k' ≠ k → s'.2 !! k' = db !! k')
  ∧ last_contact_date (row s'.1) = saved_at
  ∧ set_contact_dates (first_contact_date (row self))
      (last_contact_date (row self))
      (set_chat_history (chat_history (row self)) (row s'.1))
    = row self.
Proof.
  rewrite add_message_eq. unfold after. cbn [fst snd row pk].
  split; [done |]. split; [by rewrite lookup_insert_eq |].
  split; [by intros k' Hk'; rewrite lookup_insert_ne |].
  split; [done |]. by destruct (row self).
Qed.

Lemma add_message_saves_witness :
  (after (add_message Sample.third_day Sample.third_day "hello"
            default_sender (Sample.visitor, ∅))).2 !! 0%nat
  = Some (row (after (add_message Sample.third_day Sample.third_day "hello"
                        default_sender (Sample.visitor, ∅))).1).
Proof.
  destruct (add_message_saves Sample.third_day Sample.third_day "hello"
              default_sender Sample.visitor ∅) as (_ & H & _).
  exact H.
Defined.

End HistoryFacts.

(** ** Prompts: saving, looking up, defaulting *)

Section PromptFacts.

Import DeepSeekPromptTemplate.

Implicit Types (db : gmap nat DeepSeekPromptTemplate.t).
Implicit Types (self p r : DeepSeekPromptTemplate.t).

Lemma save_dom (now : datetime) self db :
  dom (after (save now self db)) = {[row_key self db]} ∪ dom db.
Proof.
  apply set_eq. intros k. rewrite elem_of_union, elem_of_singleton, !elem_of_dom.
  destruct (decide (k = row_key self db)) as [-> | Hne].
  - destruct (save_lookup_key now self db) as (row & _ & -> & _).
    split; [by left | by eexists].
  - rewrite save_lookup_other by done.
    destruct (is_active self); [rewrite fmap_is_Some |];
      (split; [by right | by intros [? | ?]]).
Qed.

(** X15.  [save] deletes nothing and adds at most the row of the instance:
    the keys afterwards are the keys before and the key of the instance; and
    every row still carries its own key if that was so before. *)
Theorem save_keeps_rows (now : datetime) self db :
  dom (after (save now self db)) = {[row_key self db]} ∪ dom db
  ∧ (keyed db → keyed (after (save now self db))).
Proof.
  split; [apply save_dom |].
  intros K k r Hr.
  destruct (decide (k = row_key self db)) as [-> | Hne].
  - destruct (save_lookup_key now self db) as (row & _ & Hk & Hpk & _).
    congruence.
  - rewrite save_lookup_other in Hr by done.
    destruct (is_active self); [| by apply K].
    destruct (db !! k) as [r0 |] eqn:E; simplify_eq/=. by apply K.
Qed.

Lemma sample_prompts_keyed : keyed Sample.prompts.
Proof.
  intros k r H. unfold Sample.prompts in H.
  apply lookup_insert_Some in H as [[<- <-] | [? H]]; [done |].
  apply lookup_insert_Some in H as [[<- <-] | [? H]]; done.
Qed.

Lemma save_keeps_rows_witness :
  keyed (after (save Sample.third_day Sample.draft Sample.prompts)).
Proof.
  apply (save_keeps_rows Sample.third_day Sample.draft Sample.prompts).
  exact sample_prompts_keyed.
Defined.

(** When one row is the only active one, it is the one [first] finds. *)
Lemma first_filter_active_only db a (k : nat) :
  db !! k = Some a → is_active a = true →
  (∀ k' r, db !! k' = Some r → is_active r = true → r = a) →
  first (filter_active db) = Some a.
Proof.
  intros Hk Ha Honly.
  destruct (first (filter_active db)) as [b |] eqn:F.
  - apply first_elem, elem_of_filter_active in F as [Hb [k' Hk']].
    f_equal. by apply (Honly k' b).
  - apply first_None in F.
    assert (Hin : a ∈ filter_active db) by (apply elem_of_filter_active; eauto).
    rewrite F in Hin. by apply not_elem_of_nil in Hin.
Qed.

(** X16.  Saving an active prompt makes it the active prompt: the lookup that
    follows returns the very row that was saved. *)
Theorem save_then_get_active (now : datetime) self db row :
  is_active self = true →
  result (save now self db) = Returned row →
  get_active_prompt (after (save now self db))
  = (Returned (Some row), after (save now self db)).
Proof.
  intros Ha Hrow.
  destruct (save_lookup_key now self db) as (row' & Hres & Hk & _ & Hact & _).
  rewrite Hrow in Hres. injection Hres as <-.
  unfold get_active_prompt. f_equal. f_equal.
  apply (first_filter_active_only _ row (row_key self db)); [done | congruence |].
  intros k' r Hr Hra.
  destruct (decide (k' = row_key self db)) as [-> | Hne]; [congruence |].
  rewrite save_lookup_other, Ha in Hr by done.
  destruct (db !! k') as [r0 |]; simplify_eq/=.
Qed.

Lemma save_then_get_active_witness :
  result (get_active_prompt
            (after (save Sample.third_day Sample.draft Sample.prompts)))
  = Returned (Some (DeepSeekPromptTemplate.mk (Some 3%nat) "draft" ""
                      "Be kind." true Sample.third_day Sample.third_day)).
Proof.
  rewrite (save_then_get_active Sample.third_day Sample.draft Sample.prompts
             (DeepSeekPromptTemplate.mk (Some 3%nat) "draft" "" "Be kind."
                true Sample.third_day Sample.third_day));
    reflexivity.
Defined.

(** X17.  Saving again the instance a save returned adds no row: the row
    keeps its key, its fields and its creation stamp, and only [updated_at]
    moves to the time of the second save. *)
Theorem save_again (now later : datetime) self db row :
  result (save now self db) = Returned row →
  let db' := after (save now self db) in
  result (save later row db')
  = Returned (DeepSeekPromptTemplate.mk (pk row) (name row) (description row)
                (system_prompt row) (is_active row) (created_at row) later)
  ∧ dom (after (save later row db')) = dom db'.
Proof.
  intros Hrow db'.
  destruct (save_lookup_key now self db) as (r0 & Hres & Hk & Hpk & _).
  rewrite Hrow in Hres. injection Hres as <-. fold db' in Hk.
  assert (Hkey : row_key row db' = row_key self db)
    by (unfold row_key at 1; by rewrite Hpk).
  assert (Hin : row_key self db ∈ dom db') by (apply elem_of_dom; eauto).
  split; [| rewrite save_dom, Hkey;
            by apply subseteq_union_1_L, singleton_subseteq_l].
  rewrite save_eq.
  set (db1 := if is_active row
              then after (exclude_update_inactive (pk row) db') else db').
  assert (Hin1 : is_Some (db1 !! row_key self db)).
  { subst db1. destruct (is_active row); [| by eexists].
    rewrite exclude_update_lookup, Hk. by eexists. }
  unfold Model_save, result, row_key; cbn [fst snd]. rewrite Hpk.
  by destruct (decide (is_Some (db1 !! row_key self db))).
Qed.

Lemma save_again_witness :
  dom (after (save Sample.new_year
                (DeepSeekPromptTemplate.mk (Some 3%nat) "draft" "" "Be kind."
                   true Sample.third_day Sample.third_day)
                (after (save Sample.third_day Sample.draft Sample.prompts))))
  = dom (after (save Sample.third_day Sample.draft Sample.prompts)).
Proof.
  apply (save_again Sample.third_day Sample.new_year Sample.draft
           Sample.prompts). reflexivity.
Defined.

(** X18.  [get_active_prompt] returns nothing exactly when no row is active;
    otherwise it returns an active row of the table than which no active row
    was updated more recently.  The table is not modified. *)
Theorem get_active_prompt_newest db :
  after (get_active_prompt db) = db
  ∧ (result (get_active_prompt db) = Returned None
     ↔ ∀ k r, db !! k = Some r → is_active r = false)
  ∧ (∀ a, result (get_active_prompt db) = Returned (Some a) →
          is_active a = true
          ∧ (∃ k, db !! k = Some a)
          ∧ ∀ k r, db !! k = Some r → is_active r = true →
                   datetime_ltb (updated_at a) (updated_at r) = false).
Proof.
  destruct (get_active_prompt_spec db) as [Hafter Hspec].
  split; [done |]. unfold get_active_prompt, result in *; simpl in *.
  destruct (first (filter_active db)) as [a |] eqn:F.
  - destruct Hspec as [Ha [k Hk]]. split.
    + split; [done |]. intros Hall. rewrite (Hall k a Hk) in Ha. done.
    + intros a' [= <-]. split; [done |]. split; [eauto |].
      intros k' r Hr Hra.
      apply (first_newest _ _ F r). apply elem_of_filter_active. eauto.
  - split; [done |]. intros a' [=].
Qed.

Lemma get_active_prompt_newest_witness :
  result (get_active_prompt Sample.prompts) ≠ Returned None.
Proof.
  destruct (get_active_prompt_newest Sample.prompts) as (_ & [H _] & _).
  intros E. specialize (H E 2%nat _ eq_refl). discriminate H.
Defined.

(** What [get_default_prompt] does in each of its two cases. *)
Lemma get_default_prompt_found (now : datetime) db a :
  first (filter_active db) = Some a →
  get_default_prompt now db = (Returned a, db).
Proof.
  intros F. unfold get_default_prompt, get_active_prompt, mbind, meth_bind.
  by rewrite F.
Qed.

Lemma get_default_prompt_created (now : datetime) db :
  first (filter_active db) = None →
  let p := DeepSeekPromptTemplate.mk (Some (fresh (dom db))) default_name
             default_description default_system_prompt true now now in
  get_default_prompt now db = (Returned p, <[fresh (dom db) := p]> db)
  ∧ ∀ k r, db !! k = Some r → is_active r = false.
Proof.
  intros F p.
  assert (Hall : ∀ k r, db !! k = Some r → is_active r = false).
  { pose proof (get_active_prompt_spec db) as [_ H].
    unfold get_active_prompt, result in H; simpl in H. by rewrite F in H. }
  split; [| done].
  unfold get_default_prompt, get_active_prompt, mbind, meth_bind.
  rewrite F. unfold objects_create. rewrite save_eq. cbn [is_active pk].
  rewrite (exclude_update_none_active None db Hall).
  reflexivity.
Qed.

(** X19.  [get_default_prompt] is idempotent: a second call, at whatever time,
    returns the template the first call returned and leaves the table as the
    first call left it; at most one row is ever created. *)
Theorem get_default_prompt_idempotent (now later : datetime) db :
  let c := get_default_prompt now db in
  ∃ p, result c = Returned p
       ∧ get_default_prompt later (after c) = (Returned p, after c).
Proof.
  cbv zeta. destruct (first (filter_active db)) as [a |] eqn:F.
  - rewrite (get_default_prompt_found now db a F). exists a.
    split; [done |]. by apply get_default_prompt_found.
  - destruct (get_default_prompt_created now db F) as [-> Hall].
    eexists. split; [reflexivity |]. unfold after; cbn [snd].
    apply get_default_prompt_found.
    apply (first_filter_active_only _ _ (fresh (dom db)));
      [by rewrite lookup_insert_eq | done |].
    intros k' r Hr Hra.
    apply lookup_insert_Some in Hr as [[_ <-] | [_ Hr]]; [done |].
    rewrite (Hall k' r Hr) in Hra. done.
Qed.

(** X20.  [get_default_prompt] keeps the table with at most one active row,
    and it never removes or changes a row that was there. *)
Theorem get_default_prompt_invariant (now : datetime) db :
  let db' := after (get_default_prompt now db) in
  (at_most_one_active db → at_most_one_active db')
  ∧ ∀ k r, db !! k = Some r → db' !! k = Some r.
Proof.
  cbv zeta. destruct (first (filter_active db)) as [a |] eqn:F.
  - by rewrite (get_default_prompt_found now db a F).
  - destruct (get_default_prompt_created now db F) as [-> Hall].
    unfold after; cbn [snd].
    assert (Hfresh : db !! fresh (dom db) = None)
      by apply not_elem_of_dom, is_fresh.
    split.
    + intros _ k1 k2 r1 r2 H1 H2 A1 A2.
      apply lookup_insert_Some in H1 as [[<- _] | [_ H1]];
        apply lookup_insert_Some in H2 as [[<- _] | [_ H2]]; try done.
      * rewrite (Hall _ _ H2) in A2. done.
      * rewrite (Hall _ _ H1) in A1. done.
      * rewrite (Hall _ _ H1) in A1. done.
    + intros k r Hr. rewrite lookup_insert_ne; [done |]. congruence.
Qed.

Lemma get_default_prompt_invariant_witness :
  at_most_one_active
    (after (get_default_prompt Sample.third_day Sample.prompts)).
Proof.
  apply (get_default_prompt_invariant Sample.third_day Sample.prompts).
  exact sample_prompts_one_active.
Defined.

End PromptFacts.

(** ** Customers *)

Section CustomerFacts.

Import Customer.

Lemma get_identifier_eq (c : Customer.t) :
  get_identifier c
  = (Returned match telegram_id c with
              | Some n => if int_bool n then Telegram n
                          else Phone (phone_number c)
              | None => Phone (phone_number c)
              end, c).
Proof.
  unfold get_identifier, attr, mbind, mret, meth_bind, meth_ret.
  destruct (telegram_id c) as [n |]; [| done]. by destruct (int_bool n).
Qed.

(** X21.  In a table that honours the two unique constraints, the identifier
    identifies: two rows with the same identifier are one row.  A Telegram id
    of zero counts as none, and such a customer is known by the phone
    number. *)
Theorem get_identifier_identifies (db : gmap nat Customer.t)
    (k1 k2 : nat) (a b : Customer.t) :
  unique_phone_number db → unique_telegram_id db →
  db !! k1 = Some a → db !! k2 = Some b →
  result (get_identifier a) = result (get_identifier b) →
  k1 = k2.
Proof.
  intros Up Ut Ha Hb. rewrite !get_identifier_eq. unfold result; simpl.
  intros [= H].
  destruct (telegram_id a) as [n |] eqn:Ta, (telegram_id b) as [m |] eqn:Tb.
  - destruct (int_bool n), (int_bool m); simplify_eq.
    + by apply (Ut k1 k2 a b m).
    + by apply (Up k1 k2 a b).
  - destruct (int_bool n); simplify_eq. by apply (Up k1 k2 a b).
  - destruct (int_bool m); simplify_eq. by apply (Up k1 k2 a b).
  - simplify_eq. by apply (Up k1 k2 a b).
Qed.

Lemma sample_customers_unique :
  unique_phone_number Sample.customers ∧ unique_telegram_id Sample.customers.
Proof.
  split.
  - intros k1 k2 a b Ha Hb. unfold Sample.customers in *.
    apply lookup_insert_Some in Ha as [[<- <-] | [? Ha]];
      apply lookup_insert_Some in Hb as [[<- <-] | [? Hb]]; try done.
    + apply lookup_insert_Some in Hb as [[<- <-] | [? Hb]]; done.
    + apply lookup_insert_Some in Ha as [[<- <-] | [? Ha]]; done.
    + apply lookup_insert_Some in Ha as [[<- <-] | [? Ha]]; [| done].
      apply lookup_insert_Some in Hb as [[<- <-] | [? Hb]]; done.
  - intros k1 k2 a b n Ha Hb. unfold Sample.customers in *.
    apply lookup_insert_Some in Ha as [[<- <-] | [? Ha]];
      apply lookup_insert_Some in Hb as [[<- <-] | [? Hb]]; try done.
    apply lookup_insert_Some in Ha as [[<- <-] | [? Ha]]; [| done].
    apply lookup_insert_Some in Hb as [[<- <-] | [? Hb]]; done.
Qed.

Lemma get_identifier_identifies_witness : 1%nat = 1%nat.
Proof.
  destruct sample_customers_unique as [Up Ut].
  exact (get_identifier_identifies Sample.customers 1 1 _ _ Up Ut
           eq_refl eq_refl eq_refl).
Defined.

End CustomerFacts.
